(** * A relay in front of the Spotify Web API: shallow embedding of [user.py]

    The program is a Flask application.  Each route handler reads the
    request, reads and writes the per-user [session] dictionary, talks to
    the upstream service through [requests] and returns a Flask response.

    The embedding keeps that shape:
    - Python values (JSON documents, session entries) are the type [pyval];
    - Python exceptions are the type [exn]; an expression that can raise
      has type [result];
    - a handler is a state transformer over a [world] (session, log of the
      upstream requests issued, number of clock readings) that ends in a
      value or in an exception, the writes made before the exception being
      kept, as in Python;
    - the upstream service and the clock are oracles of the environment.

    An exception that leaves a view function is the result [Raise] of the
    handler; Flask answers such a request with a 500 page.

    Idealisations.  Python floats are exact rationals ([Q]): no rounding,
    no NaN, no infinity, no overflow.  A Python [str] is held as the
    sequence of its UTF-8 bytes.  [print] calls are not modelled. *)

From Stdlib Require Import ZArith QArith Qround Lqa String Ascii List.
From Stdlib Require Import DecimalString DecimalZ DecimalPos.
From stdpp Require Import base option list gmap strings.

Local Open Scope string_scope.
Set Warnings "-register-all".

(** ** Python values and exceptions *)

Inductive pyval : Type :=
| VNone
| VBool (b : bool)
| VInt (n : Z)
| VFloat (q : Q)
| VStr (s : string)
| VList (l : list pyval)
| VDict (d : list (string * pyval)).

Inductive exn : Type :=
| KeyError (key : pyval)
| IndexError
| TypeError
| AttributeError (attr : string)
| JSONDecodeError
| BadRequestKeyError (key : string)
| ConnectionError.

Inductive result (A : Type) : Type :=
| Ok (a : A)
| Raise (e : exn).
Arguments Ok {A} a.
Arguments Raise {A} e.

#[global] Instance result_ret : MRet result := fun A a => Ok a.
#[global] Instance result_bind : MBind result := fun A B f r =>
  match r with
  | Ok a => f a
  | Raise e => Raise e
  end.

(** ** Operations of the Python data model used by the handlers *)

(** [d[k]] on the entries of a dict, [None] when the key is absent. *)
Fixpoint dict_get (d : list (string * pyval)) (k : string) : option pyval :=
  match d with
  | [] => None
  | (k', v) :: d' => if String.eqb k' k then Some v else dict_get d' k
  end.

(** [k in d] for a dict or a werkzeug MultiDict. *)
Fixpoint contains_key {A} (d : list (string * A)) (k : string) : bool :=
  match d with
  | [] => false
  | (k', _) :: d' => String.eqb k' k || contains_key d' k
  end.

(** [d[k]] for a werkzeug MultiDict (first value of the key). *)
Fixpoint multidict_get (d : list (string * string)) (k : string) : option string :=
  match d with
  | [] => None
  | (k', v) :: d' => if String.eqb k' k then Some v else multidict_get d' k
  end.

(** [v[k]] with a string subscript: only a dict accepts it. *)
Definition getitem (v : pyval) (k : string) : result pyval :=
  match v with
  | VDict d =>
      match dict_get d k with
      | Some x => Ok x
      | None => Raise (KeyError (VStr k))
      end
  | _ => Raise TypeError
  end.

(** [v[0]]. *)
Definition getitem0 (v : pyval) : result pyval :=
  match v with
  | VList (x :: _) => Ok x
  | VList [] => Raise IndexError
  | VStr (String c _) => Ok (VStr (String c ""))
  | VStr "" => Raise IndexError
  | VDict _ => Raise (KeyError (VInt 0))
  | _ => Raise TypeError
  end.

(** Truth value of an object, as tested by [if v:]. *)
Definition truthy (v : pyval) : bool :=
  match v with
  | VNone => false
  | VBool b => b
  | VInt n => negb (n =? 0)%Z
  | VFloat q => negb (Qeq_bool q 0)
  | VStr s => negb (String.eqb s "")
  | VList l => match l with [] => false | _ => true end
  | VDict d => match d with [] => false | _ => true end
  end.

Fixpoint chars (s : string) : list pyval :=
  match s with
  | "" => []
  | String c t => VStr (String c "") :: chars t
  end.

(** The elements visited by [for x in v:].  A str yields its characters
    (here one element per byte); the loops of the program raise on the
    first of them. *)
Definition py_iter (v : pyval) : result (list pyval) :=
  match v with
  | VList l => Ok l
  | VDict d => Ok (map (fun kv => VStr (fst kv)) d)
  | VStr s => Ok (chars s)
  | _ => Raise TypeError
  end.

(** The number held by an int, a float or a bool. *)
Definition num_of (v : pyval) : option Q :=
  match v with
  | VInt n => Some (inject_Z n)
  | VFloat q => Some q
  | VBool b => Some (if b then 1 else 0)%Q
  | _ => None
  end.

Definition Qgtb (x y : Q) : bool := negb (Qle_bool x y).

(** [x > v] for a float [x]. *)
Definition float_gt (x : Q) (v : pyval) : result bool :=
  match num_of v with
  | Some y => Ok (Qgtb x y)
  | None => Raise TypeError
  end.

(** [x + v] for a float [x]: a float. *)
Definition float_add (x : Q) (v : pyval) : result pyval :=
  match num_of v with
  | Some y => Ok (VFloat (x + y))
  | None => Raise TypeError
  end.

(** [v / 1000]: true division, a float. *)
Definition div1000 (v : pyval) : result Q :=
  match num_of v with
  | Some y => Ok (y / 1000)%Q
  | None => Raise TypeError
  end.

(** [round(q, 2)], ties to even. *)
Definition round2 (q : Q) : Q :=
  let n := (q * 100)%Q in
  let f := Qfloor n in
  let r := (n - inject_Z f)%Q in
  let up := (inject_Z (f + 1) / 100)%Q in
  let down := (inject_Z f / 100)%Q in
  if Qgtb (1 # 2) r then down
  else if Qgtb r (1 # 2) then up
  else if Z.even f then down else up.

Definition str_of_int (n : Z) : string := NilZero.string_of_int (Z.to_int n).

Fixpoint mapR {A B} (f : A -> result B) (l : list A) : result (list B) :=
  match l with
  | [] => Ok []
  | x :: l' => y ← f x; ys ← mapR f l'; mret (y :: ys)
  end.

(** ** [urllib.parse] *)

Module urllib.

Definition in_range (lo hi c : ascii) : bool :=
  (N_of_ascii lo <=? N_of_ascii c)%N && (N_of_ascii c <=? N_of_ascii hi)%N.

Fixpoint mem_char (c : ascii) (s : string) : bool :=
  match s with
  | "" => false
  | String a t => Ascii.eqb a c || mem_char c t
  end.

(** [_ALWAYS_SAFE]: letters, digits and [_.-~]. *)
Definition always_safe (c : ascii) : bool :=
  in_range "A" "Z" c || in_range "a" "z" c || in_range "0" "9" c
  || mem_char c "_.-~".

Definition hex_digit (n : N) : ascii :=
  if (n <? 10)%N then ascii_of_N (N_of_ascii "0" + n)
  else ascii_of_N (N_of_ascii "A" + (n - 10)).

(** ['%{:02X}'.format(c)] *)
Definition percent (c : ascii) : string :=
  String "%" (String (hex_digit (N_of_ascii c / 16))
                     (String (hex_digit (N_of_ascii c mod 16)) "")).

(** [quote(s, safe)]: every byte outside [_ALWAYS_SAFE] and [safe] is
    percent-encoded. *)
Fixpoint quote (safe : string) (s : string) : string :=
  match s with
  | "" => ""
  | String c t =>
      if always_safe c || mem_char c safe then String c (quote safe t)
      else percent c +:+ quote safe t
  end.

(** [s.replace(a, b)] for single characters. *)
Fixpoint replace_char (a b : ascii) (s : string) : string :=
  match s with
  | "" => ""
  | String c t => String (if Ascii.eqb c a then b else c) (replace_char a b t)
  end.

(** [quote_plus(s, safe='')] *)
Definition quote_plus (s : string) : string :=
  if mem_char " " s then replace_char " " "+" (quote " " s)
  else quote "" s.

(** ['&'.join(l)] *)
Fixpoint join (sep : string) (l : list string) : string :=
  match l with
  | [] => ""
  | [x] => x
  | x :: l' => x +:+ sep +:+ join sep l'
  end.

(** Value of a hexadecimal digit of either case ([_hextobyte]). *)
Definition hex_val (c : ascii) : option N :=
  if in_range "0" "9" c then Some (N_of_ascii c - N_of_ascii "0")%N
  else if in_range "A" "F" c then Some (N_of_ascii c - N_of_ascii "A" + 10)%N
  else if in_range "a" "f" c then Some (N_of_ascii c - N_of_ascii "a" + 10)%N
  else None.

(** [unquote(s)]: [%XY] becomes the byte it names, a [%] that is not
    followed by two hexadecimal digits is kept. *)
Fixpoint unquote (s : string) : string :=
  match s with
  | "" => ""
  | String c t =>
      if Ascii.eqb c "%" then
        match t with
        | String a (String b r) =>
            match hex_val a, hex_val b with
            | Some x, Some y => String (ascii_of_N (16 * x + y)) (unquote r)
            | _, _ => String c (unquote t)
            end
        | _ => String c (unquote t)
        end
      else String c (unquote t)
  end.

(** [s.split(sep)] for a one-character separator: never empty. *)
Fixpoint split (sep : ascii) (s : string) : list string :=
  match s with
  | "" => [""]
  | String c t =>
      if Ascii.eqb c sep then "" :: split sep t
      else match split sep t with
           | h :: r => String c h :: r
           | [] => [String c ""]
           end
  end.

(** [s.split(sep, 1)]: the text before the first separator and, when there
    is one, the text after it. *)
Fixpoint split1 (sep : ascii) (s : string) : string * option string :=
  match s with
  | "" => ("", None)
  | String c t =>
      if Ascii.eqb c sep then ("", Some t)
      else let '(h, r) := split1 sep t in (String c h, r)
  end.

(** [parse_qsl(qs, keep_blank_values)], the decoder that goes with
    [urlencode]. *)
Definition parse_pair (keep_blank_values : bool) (name_value : string)
  : list (string * string) :=
  if String.eqb name_value "" then []
  else
    let '(n, ov) := split1 "=" name_value in
    match (match ov with
           | Some v => Some v
           | None => if keep_blank_values then Some "" else None
           end) with
    | None => []
    | Some v =>
        if negb (String.eqb v "") || keep_blank_values then
          [(unquote (replace_char "+" " " n), unquote (replace_char "+" " " v))]
        else []
    end.

Definition parse_qsl (keep_blank_values : bool) (qs : string)
  : list (string * string) :=
  if String.eqb qs "" then []
  else flat_map (parse_pair keep_blank_values) (split "&" qs).

(** Characters that [quote_plus] can put out. *)
Definition url_char (c : ascii) : bool := always_safe c || mem_char c "+%".

Fixpoint all_chars (p : ascii -> bool) (s : string) : bool :=
  match s with
  | "" => true
  | String c t => p c && all_chars p t
  end.

(** [urlsplit(url).query]: the text between the first [?] and the first
    [#] after it. *)
Definition url_query (url : string) : string :=
  match snd (split1 "?" url) with
  | Some q => fst (split1 "#" q)
  | None => ""
  end.

(** Reading a decoded value back at the type it had in the dictionary: the
    parameters the program passes are strings and integers.  The program
    itself never decodes; [parse_qsl] and these readers are the inverse its
    query string is checked against. *)
Inductive kind : Type := KStr | KInt.

Definition int_of_text (s : string) : option Z :=
  option_map Z.of_int (NilZero.int_of_string s).

End urllib.

(** ** HTTP messages and Flask responses *)

Inductive http_method : Type := GET | POST.

Record http_request : Type := HttpRequest {
  rq_method : http_method;
  rq_url : string;
  rq_headers : list (string * string);
  rq_data : list (string * pyval)
}.

(** An upstream response: its status and the document its body parses to
    ([None] when the body is not JSON). *)
Record http_response : Type := HttpResponse {
  status_code : Z;
  json_body : option pyval
}.

(** [response.json()] and [json.loads(response.text)]. *)
Definition response_json (r : http_response) : result pyval :=
  match json_body r with
  | Some v => Ok v
  | None => Raise JSONDecodeError
  end.

(** What a view function hands back to Flask.  [NoResponse] is a function
    that ends without [return]. *)
Inductive view : Type :=
| Redirect (location : string)
| RenderTemplate (template : string) (context : list (string * pyval))
| Jsonify (body : pyval) (status : Z)
| NoResponse.

(** ** The environment of a request and the state a handler works on *)

Record env : Type := Env {
  (** [os.getenv]: a str, or [None] when the variable is not set *)
  CLIENT_ID : pyval;
  CLIENT_SECRET : pyval;
  (** the interpreter: the text of a float, a list or a dict, and [int(s)]
      for a string ([None] is ValueError), are left open *)
  repr_other : pyval -> string;
  int_of_str : string -> option Z;
  request_method : string;
  request_args : list (string * string);
  request_form : list (string * string);
  (** the upstream service: its answer to a request, given the requests it
      has received before; [None] is a network failure *)
  upstream : list http_request -> http_request -> option http_response;
  (** the value of the n-th reading of [datetime.now().timestamp()] *)
  clock : nat -> Q
}.

Record world : Type := World {
  session : gmap string pyval;
  sent : list http_request;
  ticks : nat
}.

Definition M (A : Type) : Type := world -> result A * world.

#[global] Instance M_ret : MRet M := fun A a w => (Ok a, w).
#[global] Instance M_bind : MBind M := fun A B f m w =>
  match m w with
  | (Ok a, w') => f a w'
  | (Raise e, w') => (Raise e, w')
  end.

Definition lift {A} (r : result A) : M A := fun w => (r, w).

Definition session_contains (k : string) : M bool := fun w =>
  (Ok (match session w !! k with Some _ => true | None => false end), w).

Definition session_get (k : string) : M pyval := fun w =>
  match session w !! k with
  | Some v => (Ok v, w)
  | None => (Raise (KeyError (VStr k)), w)
  end.

(** [session[k] = v] *)
Definition store (k : string) (v : pyval) (w : world) : world :=
  {| session := <[k:=v]> (session w); sent := sent w; ticks := ticks w |}.

Definition session_set (k : string) (v : pyval) : M unit := fun w =>
  (Ok tt, store k v w).

(** One more reading of the clock; one more request sent. *)
Definition tick (w : world) : world :=
  {| session := session w; sent := sent w; ticks := S (ticks w) |}.

Definition log (rq : http_request) (w : world) : world :=
  {| session := session w; sent := sent w ++ [rq]; ticks := ticks w |}.

(** [try: body except Exception as e: handler] *)
Definition try_except {A} (body : M A) (handler : exn -> M A) : M A := fun w =>
  match body w with
  | (Ok a, w') => (Ok a, w')
  | (Raise e, w') => handler e w'
  end.

Definition REDIRECT_URI : string := "http://localhost:5000/callback".
Definition AUTH_URL : string := "https://accounts.spotify.com/authorize".
Definition TOKEN_URL : string := "https://accounts.spotify.com/api/token".
Definition API_BASE_URL : string := "https://api.spotify.com/v1".

(** The routes of the application, by view function. *)
Definition routes : list (string * string) :=
  [("index", "/"); ("login", "/login"); ("home", "/home");
   ("callback", "/callback"); ("get_top_artists", "/artists");
   ("get_top_tracks", "/tracks"); ("get_playlists", "/playlists");
   ("get_song_suggestions", "/suggestions");
   ("get_custom_recommendations", "/custom-recommendations");
   ("get_recommendations", "/get-recommendations");
   ("refresh_token", "/refresh-token")].

Definition url_for (endpoint : string) : string :=
  default "" (multidict_get routes endpoint).

Section Handlers.

Variable e : env.

(** [str(v)], also what an f-string puts for [{v}]. *)
Definition py_str (v : pyval) : string :=
  match v with
  | VStr s => s
  | VInt n => str_of_int n
  | VBool true => "True"
  | VBool false => "False"
  | VNone => "None"
  | _ => repr_other e v
  end.

Definition datetime_now_timestamp : M Q := fun w =>
  (Ok (clock e (ticks w)), tick w).

(** A call through [requests]: the request is logged, then answered. *)
Definition send (rq : http_request) : M http_response := fun w =>
  match upstream e (sent w) rq with
  | Some r => (Ok r, log rq w)
  | None => (Raise ConnectionError, log rq w)
  end.

Definition requests_get (url : string) (headers : list (string * string))
  : M http_response :=
  send {| rq_method := GET; rq_url := url; rq_headers := headers; rq_data := [] |}.

Definition requests_post (url : string) (data : list (string * pyval))
  : M http_response :=
  send {| rq_method := POST; rq_url := url; rq_headers := []; rq_data := data |}.

(** [request.post(url, data=...)]: [request] is Flask's request object,
    which has no attribute [post]; the attribute lookup raises and nothing
    is sent. *)
Definition request_post (url : string) (data : list (string * pyval))
  : M http_response :=
  lift (Raise (AttributeError "post")).

(** [request.args[k]] and [request.form[k]] *)
Definition args_get (k : string) : result string :=
  match multidict_get (request_args e) k with
  | Some v => Ok v
  | None => Raise (BadRequestKeyError k)
  end.

Definition form_get (k : string) : result string :=
  match multidict_get (request_form e) k with
  | Some v => Ok v
  | None => Raise (BadRequestKeyError k)
  end.

(** [request.form.get(k, default, type=int)] *)
Definition form_get_int (k : string) (default : Z) : Z :=
  match multidict_get (request_form e) k with
  | Some s => match int_of_str e s with Some n => n | None => default end
  | None => default
  end.

(** [urllib.parse.urlencode(params)]: each entry becomes
    [quote_plus(str(k)) + '=' + quote_plus(str(v))]. *)
Definition encode_pair (kv : string * pyval) : string :=
  urllib.quote_plus (fst kv) +:+ "=" +:+ urllib.quote_plus (py_str (snd kv)).

Definition urlencode (params : list (string * pyval)) : string :=
  urllib.join "&" (map encode_pair params).

(** *** /callback *)

Definition callback : M view :=
  if contains_key (request_args e) "error" then
    err ← lift (args_get "error");
    mret (Jsonify (VDict [("error", VStr err)]) 200)
  else if contains_key (request_args e) "code" then
    code ← lift (args_get "code");
    let req_body :=
      [("code", VStr code);
       ("grant_type", VStr "authorization_code");
       ("redirect_uri", VStr REDIRECT_URI);
       ("client_id", CLIENT_ID e);
       ("client_secret", CLIENT_SECRET e)] in
    response ← requests_post TOKEN_URL req_body;
    token_info ← lift (response_json response);
    access_token ← lift (getitem token_info "access_token");
    session_set "access_token" access_token;;
    refresh_token ← lift (getitem token_info "refresh_token");
    session_set "refresh_token" refresh_token;;
    now ← datetime_now_timestamp;
    expires_in ← lift (getitem token_info "expires_in");
    expires_at ← lift (float_add now expires_in);
    session_set "expires_at" expires_at;;
    mret (Redirect (url_for "home"))
  else mret NoResponse.

(** *** /artists *)

(** Body of the loop over [response_data['items']]. *)
Definition artist_row (artist : pyval) : result pyval :=
  artist_name ← getitem artist "name";
  images ← getitem artist "images";
  artist_picture ←
    (if truthy images then
       images ← getitem artist "images";
       first ← getitem0 images;
       getitem first "url"
     else mret VNone);
  popularity ← getitem artist "popularity";
  genres ← getitem artist "genres";
  mret (VDict [("name", artist_name); ("picture", artist_picture);
               ("popularity", popularity); ("genres", genres)]).

Definition get_top_artists : M view :=
  has ← session_contains "access_token";
  if negb has then mret (Redirect "/login") else
  now ← datetime_now_timestamp;
  expires_at ← session_get "expires_at";
  expired ← lift (float_gt now expires_at);
  if (expired : bool) then mret (Redirect "/refresh-token") else
  token ← session_get "access_token";
  let headers := [("Authorization", "Bearer " +:+ py_str token)] in
  response ← requests_get (API_BASE_URL +:+ "/me/top/artists") headers;
  if (status_code response =? 200)%Z then
    response_data ← lift (response_json response);
    items ← lift (getitem response_data "items");
    items ← lift (py_iter items);
    artists ← lift (mapR artist_row items);
    mret (RenderTemplate "artists.html" [("artists", VList artists)])
  else mret (Redirect "/login").

(** *** /tracks *)

Definition track_row (track : pyval) : result pyval :=
  track_name ← getitem track "name";
  track_length ← getitem track "duration_ms";
  total_seconds ← div1000 track_length;
  let minutes := inject_Z (Qfloor (total_seconds / 60)) in
  let seconds := (total_seconds - minutes * 60)%Q in
  popularity ← getitem track "popularity";
  artists ← getitem track "artists";
  artists ← py_iter artists;
  all ← mapR (fun x => getitem x "name") artists;
  mret (VDict [("name", track_name);
               ("time", VStr (py_str (VInt (Qfloor minutes)) +:+ "::"
                              +:+ py_str (VFloat (round2 seconds))));
               ("popularity", popularity);
               ("artist", VList all)]).

Definition get_top_tracks : M view :=
  has ← session_contains "access_token";
  if negb has then mret (Redirect "/login") else
  now ← datetime_now_timestamp;
  expires_at ← session_get "expires_at";
  expired ← lift (float_gt now expires_at);
  if (expired : bool) then mret (Redirect "/refresh-token") else
  token ← session_get "access_token";
  let headers := [("Authorization", "Bearer " +:+ py_str token)] in
  response ← requests_get (API_BASE_URL +:+ "/me/top/tracks") headers;
  if (status_code response =? 200)%Z then
    response_data ← lift (response_json response);
    items ← lift (getitem response_data "items");
    items ← lift (py_iter items);
    tracks ← lift (mapR track_row items);
    mret (RenderTemplate "tracks.html" [("tracks", VList tracks)])
  else mret (Redirect "/login").

(** *** /playlists *)

Definition playlist_row (playlist : pyval) : result pyval :=
  name ← getitem playlist "name";
  owner ← getitem playlist "owner";
  creator ← getitem owner "display_name";
  description ← getitem playlist "description";
  mret (VDict [("name", name); ("creator", creator); ("description", description)]).

Definition get_playlists : M view :=
  has ← session_contains "access_token";
  if negb has then mret (Redirect "/login") else
  now ← datetime_now_timestamp;
  expires_at ← session_get "expires_at";
  expired ← lift (float_gt now expires_at);
  if (expired : bool) then mret (Redirect "/refresh-token") else
  token ← session_get "access_token";
  let headers := [("Authorization", "Bearer " +:+ py_str token)] in
  response ← requests_get (API_BASE_URL +:+ "/me/playlists") headers;
  response_data ← lift (response_json response);
  items ← lift (getitem response_data "items");
  items ← lift (py_iter items);
  playlists ← lift (mapR playlist_row items);
  mret (RenderTemplate "playlists.html" [("playlists", VList playlists)]).

(** *** Recommendations *)

Definition build_recommendations_url (params : list (string * pyval)) : string :=
  let base_url := API_BASE_URL +:+ "/recommendations" in
  let query_params := urlencode params in
  base_url +:+ "?" +:+ query_params.

Definition suggestion_row (item : pyval) : result pyval :=
  song ← getitem item "name";
  artists ← getitem item "artists";
  first ← getitem0 artists;
  artist ← getitem first "name";
  popularity ← getitem item "popularity";
  mret (VDict [("name", song); ("artist", artist); ("popularity", popularity)]).

Definition suggestion_params : list (string * pyval) :=
  [("seed_artists", VStr "5ficpwpxT4Gz9OsA3h3fFA");
   ("seed_genres", VStr "work-out");
   ("limit", VInt 15);
   ("market", VStr "US")].

Definition get_song_suggestions : M view :=
  has ← session_contains "access_token";
  if negb has then mret (Redirect "/login") else
  now ← datetime_now_timestamp;
  expires_at ← session_get "expires_at";
  expired ← lift (float_gt now expires_at);
  if (expired : bool) then mret (Redirect "/refresh-token") else
  token ← session_get "access_token";
  let headers := [("Authorization", "Bearer " +:+ py_str token)] in
  let url := build_recommendations_url suggestion_params in
  response ← requests_get url headers;
  if (status_code response =? 200)%Z then
    response_data ← lift (response_json response);
    tracks ← lift (getitem response_data "tracks");
    tracks ← lift (py_iter tracks);
    suggestions ← lift (mapR suggestion_row tracks);
    mret (RenderTemplate "suggestions.html" [("data", VList suggestions)])
  else mret (Redirect "/login").

Definition get_artist_id (artist_name : string) : M pyval :=
  token ← session_get "access_token";
  let headers := [("Authorization", "Bearer " +:+ py_str token)] in
  let search_url :=
    API_BASE_URL +:+ "/search?q=" +:+ artist_name
    +:+ "&type=artist&market=US&limit=1&offset=0" in
  response ← requests_get search_url headers;
  if (status_code response =? 200)%Z then
    data ← lift (response_json response);
    artists ← lift (getitem data "artists");
    items ← lift (getitem artists "items");
    if truthy items then
      artists ← lift (getitem data "artists");
      items ← lift (getitem artists "items");
      first ← lift (getitem0 items);
      lift (getitem first "id")
    else mret VNone
  else mret VNone.

(** *** /get-recommendations *)

Definition get_recommendations : M view :=
  if String.eqb (request_method e) "POST" then
    try_except
      (artist_name ← lift (form_get "artist");
       selected_genres ← lift (form_get "genre");
       let min_pop := form_get_int "minimum" 0 in
       let max_pop := form_get_int "maximum" 100 in
       artist_id ← get_artist_id artist_name;
       if truthy artist_id then
         let params :=
           [("seed_artists", artist_id);
            ("seed_genres", VStr selected_genres);
            ("limit", VInt 15);
            ("market", VStr "US");
            ("min_popularity", VInt min_pop);
            ("max_popularity", VInt max_pop)] in
         let url := build_recommendations_url params in
         token ← session_get "access_token";
         let headers := [("Authorization", "Bearer " +:+ py_str token)] in
         response ← requests_get url headers;
         if (status_code response =? 200)%Z then
           response_data ← lift (response_json response);
           tracks ← lift (getitem response_data "tracks");
           tracks ← lift (py_iter tracks);
           suggestions ← lift (mapR suggestion_row tracks);
           mret (Jsonify (VList suggestions) 200)
         else
           mret (Jsonify
                   (VDict [("error", VStr "An error occurred while fetching recommendations")])
                   400)
       else mret (Jsonify (VDict [("error", VStr "No artist found")]) 404))
      (fun _ =>
         mret (Jsonify
                 (VDict [("error", VStr "An error occurred while processing the request")])
                 500))
  else mret (Jsonify (VDict [("error", VStr "Invalid request")]) 400).

(** *** /refresh-token *)

Definition refresh_token : M view :=
  has ← session_contains "refresh-token";
  if negb has then mret (RenderTemplate "home_of_app.html" []) else
  now ← datetime_now_timestamp;
  expires_at ← session_get "expires_at";
  expired ← lift (float_gt now expires_at);
  if (expired : bool) then
    stored ← session_get "refresh_token";
    let req_body :=
      [("grant_type", VStr "refresh-token");
       ("refresh_token", stored);
       ("client_id", CLIENT_ID e);
       ("client_secret", CLIENT_SECRET e)] in
    response ← request_post TOKEN_URL req_body;
    new_token_info ← lift (response_json response);
    access_token ← lift (getitem new_token_info "access_token");
    session_set "access_token" access_token;;
    now ← datetime_now_timestamp;
    expires_in ← lift (getitem new_token_info "expires_in");
    expires_at ← lift (float_add now expires_in);
    session_set "expires_at" expires_at;;
    mret (Redirect "/home")
  else mret NoResponse.

(** *** /, /login, /home *)

Definition index : M view := mret (RenderTemplate "login.html" []).

Definition login : M view :=
  let scope := "user-read-private user-read-email user-top-read" in
  let params :=
    [("client_id", CLIENT_ID e);
     ("response_type", VStr "code");
     ("scope", VStr scope);
     ("redirect_uri", VStr REDIRECT_URI);
     ("show_dialog", VBool true)] in
  let auth_url := AUTH_URL +:+ "?" +:+ urlencode params in
  mret (Redirect auth_url).

Definition home : M view := mret (RenderTemplate "home_of_app.html" []).

(** *** /custom-recommendations *)

Definition get_custom_recommendations : M view :=
  token ← session_get "access_token";
  let headers := [("Authorization", "Bearer " +:+ py_str token)] in
  if String.eqb (request_method e) "POST" then
    artist_name ← lift (form_get "artist");
    selected_genres ← lift (form_get "genre");
    let min_pop := form_get_int "minimum" 0 in
    let max_pop := form_get_int "maximum" 100 in
    artist_id ← get_artist_id artist_name;
    if truthy artist_id then
      let params :=
        [("seed_artists", artist_id);
         ("seed_genres", VStr selected_genres);
         ("limit", VInt 15);
         ("market", VStr "US");
         ("min_popularity", VInt min_pop);
         ("max_popularity", VInt max_pop)] in
      let url := build_recommendations_url params in
      response ← requests_get url headers;
      if (status_code response =? 200)%Z then
        response_data ← lift (response_json response);
        tracks ← lift (getitem response_data "tracks");
        tracks ← lift (py_iter tracks);
        suggestions ← lift (mapR suggestion_row tracks);
        mret (RenderTemplate "custom_recommendations.html" [("data", VList suggestions)])
      else
        mret (Jsonify
                (VDict [("error", VStr "An error occurred while fetching recommendations")])
                400)
    else mret (RenderTemplate "custom_recommendations.html" [])
  else mret (RenderTemplate "custom_recommendations.html" []).

(** *** Names used to state the properties *)

(** The four list pages and the upstream resource each one reads. *)
Inductive endpoint : Type := Artists | Tracks | Playlists | Suggestions.

Definition handler (ep : endpoint) : M view :=
  match ep with
  | Artists => get_top_artists
  | Tracks => get_top_tracks
  | Playlists => get_playlists
  | Suggestions => get_song_suggestions
  end.

Definition resource_url (ep : endpoint) : string :=
  match ep with
  | Artists => API_BASE_URL +:+ "/me/top/artists"
  | Tracks => API_BASE_URL +:+ "/me/top/tracks"
  | Playlists => API_BASE_URL +:+ "/me/playlists"
  | Suggestions => build_recommendations_url suggestion_params
  end.

(** The two handlers that write the credential. *)
Inductive exchange : Type := AuthorizationCode | Refresh.

Definition exchange_handler (x : exchange) : M view :=
  match x with
  | AuthorizationCode => callback
  | Refresh => refresh_token
  end.

(** The requests the handlers send. *)
Definition bearer_get (url : string) (token : pyval) : http_request :=
  {| rq_method := GET; rq_url := url;
     rq_headers := [("Authorization", "Bearer " +:+ py_str token)];
     rq_data := [] |}.

Definition exchange_request (code : string) : http_request :=
  {| rq_method := POST; rq_url := TOKEN_URL; rq_headers := [];
     rq_data := [("code", VStr code);
                 ("grant_type", VStr "authorization_code");
                 ("redirect_uri", VStr REDIRECT_URI);
                 ("client_id", CLIENT_ID e);
                 ("client_secret", CLIENT_SECRET e)] |}.

Definition search_request (artist_name : string) (token : pyval) : http_request :=
  bearer_get (API_BASE_URL +:+ "/search?q=" +:+ artist_name
              +:+ "&type=artist&market=US&limit=1&offset=0") token.

(** A parameter as it reads in a query string. *)
Definition pair_text (kv : string * pyval) : string * string :=
  (fst kv, py_str (snd kv)).

(** The kind of a parameter value, and a decoded pair read at a kind. *)
Definition kind_of (v : pyval) : option urllib.kind :=
  match v with
  | VStr _ => Some urllib.KStr
  | VInt _ => Some urllib.KInt
  | _ => None
  end.

Definition read_as (k : urllib.kind) (p : string * string) : option (string * pyval) :=
  match k with
  | urllib.KStr => Some (fst p, VStr (snd p))
  | urllib.KInt => option_map (fun n => (fst p, VInt n)) (urllib.int_of_text (snd p))
  end.

Fixpoint read_all (kinds : list urllib.kind) (pairs : list (string * string))
  : option (list (string * pyval)) :=
  match kinds, pairs with
  | [], [] => Some []
  | k :: kinds', p :: pairs' =>
      match read_as k p, read_all kinds' pairs' with
      | Some kv, Some rest => Some (kv :: rest)
      | _, _ => None
      end
  | _, _ => None
  end.

Fixpoint kinds_of (params : list (string * pyval)) : option (list urllib.kind) :=
  match params with
  | [] => Some []
  | kv :: params' =>
      match kind_of (snd kv), kinds_of params' with
      | Some k, Some ks => Some (k :: ks)
      | _, _ => None
      end
  end.

(** The views that read the session and never write it. *)
Inductive reader : Type :=
| RIndex | RLogin | RHome
| RPage (ep : endpoint)
| RCustomRecommendations | RGetRecommendations.

Definition reader_view (r : reader) : M view :=
  match r with
  | RIndex => index
  | RLogin => login
  | RHome => home
  | RPage ep => handler ep
  | RCustomRecommendations => get_custom_recommendations
  | RGetRecommendations => get_recommendations
  end.

(** The number of upstream calls written in each of them. *)
Definition max_requests (r : reader) : nat :=
  match r with
  | RIndex | RLogin | RHome => 0
  | RPage _ => 1
  | RCustomRecommendations | RGetRecommendations => 2
  end.

(** A GET below the API base that carries the access token of the session. *)
Definition bearer_request (w : world) (rq : http_request) : Prop :=
  exists token url,
    session w !! "access_token" = Some token /\
    rq = bearer_get url token /\
    String.prefix API_BASE_URL url = true.





(** The parameters and the request of the recommendations call of
    /get-recommendations and /custom-recommendations. *)
Definition recommendation_params (artist_id : pyval) (genre : string)
  : list (string * pyval) :=
  [("seed_artists", artist_id);
   ("seed_genres", VStr genre);
   ("limit", VInt 15);
   ("market", VStr "US");
   ("min_popularity", VInt (form_get_int "minimum" 0));
   ("max_popularity", VInt (form_get_int "maximum" 100))].

Definition recommendations_request (artist_id : pyval) (genre : string)
    (token : pyval) : http_request :=
  bearer_get (build_recommendations_url (recommendation_params artist_id genre)) token.

(** What [get_artist_id] makes of the answer to its search. *)
Definition search_result (r : http_response) : result pyval :=
  if (status_code r =? 200)%Z then
    data ← response_json r;
    artists ← getitem data "artists";
    items ← getitem artists "items";
    if truthy items then first ← getitem0 items; getitem first "id"
    else Ok VNone
  else Ok VNone.

(** The rows of a recommendations answer. *)
Definition suggestion_rows (r : http_response) : result (list pyval) :=
  response_data ← response_json r;
  tracks ← getitem response_data "tracks";
  tracks ← py_iter tracks;
  mapR suggestion_row tracks.

(** The parameters of /login. *)
Definition login_params : list (string * pyval) :=
  [("client_id", CLIENT_ID e);
   ("response_type", VStr "code");
   ("scope", VStr "user-read-private user-read-email user-top-read");
   ("redirect_uri", VStr REDIRECT_URI);
   ("show_dialog", VBool true)].

End Handlers.

(** Result and final state of a run. *)
Definition outcome {A} (m : M A) (w : world) : result A := fst (m w).
Definition after {A} (m : M A) (w : world) : world := snd (m w).

(** A computation that leaves the world as it found it. *)
Definition pure {A} (m : M A) : Prop := forall w, after m w = w.


(** Run from [w], [m] leaves the session alone and adds at most [n]
    requests to the log, each a bearer GET below the API base. *)
Definition reads (e : env) {A} (n : nat) (m : M A) (w : world) : Prop :=
  session (after m w) = session w /\
  exists l, sent (after m w) = (sent w ++ l)%list /\
            (length l <= n)%nat /\
            Forall (bearer_request e w) l.

(** Every value [m] returns satisfies [Q]. *)
Definition returns {A} (Q : A -> Prop) (m : M A) : Prop :=
  forall w a, outcome m w = Ok a -> Q a.

(** The answers of the JSON endpoint. *)
Definition json_answer (v : view) : Prop :=
  exists body status,
    v = Jsonify body status /\
    (status = 200 \/ status = 400 \/ status = 404 \/ status = 500)%Z.

(** Characters of a query string built by [urlencode]. *)
Definition query_char (c : ascii) : bool :=
  urllib.url_char c || urllib.mem_char c "=&".


(** ** Scenarios *)

Module Scenario.

Definition token_ok : pyval :=
  VDict [("access_token", VStr "AT1"); ("refresh_token", VStr "RT1");
         ("expires_in", VInt 3600)].

Definition token_refreshed : pyval :=
  VDict [("access_token", VStr "AT2"); ("expires_in", VInt 3600)].

Definition token_partial : pyval := VDict [("access_token", VStr "AT1")].

Definition token_error : pyval :=
  VDict [("error", VStr "invalid_grant");
         ("error_description", VStr "Invalid authorization code")].

Definition api_error : pyval :=
  VDict [("error", VDict [("status", VInt 401);
                          ("message", VStr "The access token expired")])].

Definition found (items : list pyval) : pyval :=
  VDict [("artists", VDict [("items", VList items)])].

Definition artist (id : string) : pyval :=
  VDict [("id", VStr id); ("name", VStr "Artist")].

Definition answer (status : Z) (body : pyval) : option http_response :=
  Some {| status_code := status; json_body := Some body |}.

Definition code_of (rq : http_request) : option string :=
  match dict_get (rq_data rq) "code" with
  | Some (VStr c) => Some c
  | _ => None
  end.

Definition used (history : list http_request) (c : string) : bool :=
  existsb (fun rq => match code_of rq with
                     | Some c' => String.eqb c' c
                     | None => false
                     end) history.

(** A token endpoint that accepts an authorization code once and answers a
    refresh grant without rotating the refresh token; every other call is
    answered by [api]. *)
Definition accounts (api : option http_response)
  (history : list http_request) (rq : http_request) : option http_response :=
  match rq_method rq with
  | POST =>
      match code_of rq with
      | Some c => if used history c then answer 400 token_error
                  else answer 200 token_ok
      | None => answer 200 token_refreshed
      end
  | GET => api
  end.

Definition always (r : option http_response)
  (history : list http_request) (rq : http_request) : option http_response := r.

Definition make_env (method : string) (args form : list (string * string))
  (service : list http_request -> http_request -> option http_response)
  (now : Q) : env :=
  {| CLIENT_ID := VStr "client"; CLIENT_SECRET := VStr "secret";
     repr_other := fun _ => "?"; int_of_str := fun _ => None;
     request_method := method; request_args := args; request_form := form;
     upstream := service; clock := fun _ => now |}.

Definition fresh : world := {| session := ∅; sent := []; ticks := 0 |}.

(** The session left by the exchange of the end-to-end scenario, at T = 1000. *)
Definition logged_in : world :=
  {| session := <["expires_at" := VFloat (1000 + inject_Z 3600)]>
                  (<["refresh_token" := VStr "RT1"]>
                     (<["access_token" := VStr "AT1"]> ∅));
     sent := []; ticks := 0 |}.

(** The same session with the key that [refresh_token] tests. *)
Definition logged_in_hyphen : world :=
  {| session := <["refresh-token" := VStr "RT1"]> (session logged_in);
     sent := []; ticks := 0 |}.

Definition at_callback (service : list http_request -> http_request -> option http_response) : env :=
  make_env "GET" [("code", "C0DE")] [] service 1000.

Definition at_page (api : option http_response) (now : Q) : env :=
  make_env "GET" [] [] (accounts api) now.

Definition at_search (api : option http_response) : env :=
  make_env "POST" [] [("artist", "Muse"); ("genre", "rock")] (accounts api) 2000.

(** The environments of the runs below. *)
Definition exchange_once : env := at_callback (accounts None).
Definition exchange_refused : env := at_callback (always (answer 400 token_error)).
Definition exchange_partial : env := at_callback (always (answer 200 token_partial)).

Definition page_valid : env := at_page (answer 200 (VDict [("items", VList [])])) 2000.
Definition page_expired : env := at_page None (1000 + 3601).
Definition page_refused : env := at_page (answer 401 api_error) 2000.
Definition page_failed_with_items : env :=
  at_page (answer 500 (VDict [("items", VList [])])) 2000.

Definition search_found : env := at_search (answer 200 (found [artist "A1"; artist "A2"])).
Definition search_refused : env := at_search (answer 401 api_error).

(** An API that answers the artist search with [found_doc] and every other
    call with [other]. *)
Definition catalogue (found_doc other : option http_response)
  (history : list http_request) (rq : http_request) : option http_response :=
  if String.prefix (API_BASE_URL +:+ "/search") (rq_url rq) then found_doc else other.

Definition track (name : string) (by_ : string) : pyval :=
  VDict [("name", VStr name);
         ("artists", VList [VDict [("name", VStr by_)]]);
         ("popularity", VInt 50)].

Definition tracks_doc : pyval := VDict [("tracks", VList [track "Song" "Muse"])].

Definition at_form (method : string) (form : list (string * string))
  (service : list http_request -> http_request -> option http_response) : env :=
  make_env method [] form service 2000.

Definition recommend_ok : env :=
  at_form "POST" [("artist", "Muse"); ("genre", "rock")]
    (catalogue (answer 200 (found [artist "A1"])) (answer 200 tracks_doc)).

Definition recommend_no_form : env :=
  at_form "POST" [] (catalogue (answer 200 (found [artist "A1"])) (answer 200 tracks_doc)).

Definition recommend_not_found : env :=
  at_form "POST" [("artist", "Muse"); ("genre", "rock")]
    (catalogue (answer 200 (found [])) (answer 200 tracks_doc)).

Definition page_at_expiry : env :=
  at_page (answer 200 (VDict [("items", VList [])])) (1000 + inject_Z 3600).


Definition callback_denied : env :=
  make_env "GET" [("error", "access_denied"); ("code", "C0DE")] [] (accounts None) 1000.


Definition faceless_artist : pyval :=
  VDict [("name", VStr "Muse"); ("images", VList []);
         ("popularity", VInt 80); ("genres", VList [])].

Definition anonymous_track : pyval :=
  VDict [("name", VStr "Song"); ("artists", VList []); ("popularity", VInt 50)].

Definition search_answer : http_response :=
  {| status_code := 200; json_body := Some (found [artist "A1"]) |}.

Definition recommendations_answer : http_response :=
  {| status_code := 200; json_body := Some tracks_doc |}.

Definition bad_tracks_doc : pyval :=
  VDict [("tracks", VList [track "Song" "Muse"; anonymous_track])].

Definition bad_tracks_answer : http_response :=
  {| status_code := 200; json_body := Some bad_tracks_doc |}.

Definition recommend_bad_track : env :=
  at_form "POST" [("artist", "Muse"); ("genre", "rock")]
    (catalogue (answer 200 (found [artist "A1"])) (answer 200 bad_tracks_doc)).

(** A session with an access token and no expiry. *)
Definition token_only : world :=
  {| session := <["access_token" := VStr "AT1"]> ∅; sent := []; ticks := 0 |}.

End Scenario.

(** * Properties *)

(** ** The query string *)

Module urllib_facts.
Import urllib.

Ltac each_byte c := destruct c as [[] [] [] [] [] [] [] []].

Lemma mem_char_String d c t :
  mem_char d (String c t) = Ascii.eqb c d || mem_char d t.
Proof. reflexivity. Qed.

Lemma mem_char_app d a b : mem_char d (a +:+ b) = mem_char d a || mem_char d b.
Proof.
  induction a as [|c a IH]; simpl; [reflexivity|].
  rewrite IH. apply orb_assoc.
Qed.

Lemma all_chars_mem p d s :
  all_chars p s = true -> p d = false -> mem_char d s = false.
Proof.
  induction s as [|c t IH]; simpl; [reflexivity|].
  intros H Hd. apply andb_prop in H as [Hc Ht].
  destruct (Ascii.eqb_spec c d) as [->|_]; [congruence|].
  simpl. auto.
Qed.

(** With no space in the text the two branches of [quote_plus] agree. *)
Lemma quote_step c t :
  Ascii.eqb c " " = false ->
  quote "" (String c t) =
  (if always_safe c then String c "" else percent c) +:+ quote "" t.
Proof.
  intros Hc. simpl. rewrite orb_false_r.
  destruct (always_safe c); reflexivity.
Qed.

Lemma quote_space_step c t :
  replace_char " " "+" (quote " " (String c t)) =
  (if always_safe c then String c ""
   else if Ascii.eqb c " " then "+" else percent c)
  +:+ replace_char " " "+" (quote " " t).
Proof. each_byte c; reflexivity. Qed.

Lemma quote_no_space s :
  mem_char " " s = false -> quote "" s = replace_char " " "+" (quote " " s).
Proof.
  induction s as [|c t IH]; [reflexivity|].
  rewrite mem_char_String. intros H. apply orb_false_elim in H as [Hc Ht].
  rewrite quote_space_step, (quote_step c t Hc), Hc, (IH Ht). reflexivity.
Qed.

Lemma quote_plus_eq s : quote_plus s = replace_char " " "+" (quote " " s).
Proof.
  unfold quote_plus. destruct (mem_char " " s) eqn:E; [reflexivity|].
  apply quote_no_space, E.
Qed.

Lemma all_chars_app p a b : all_chars p (a +:+ b) = all_chars p a && all_chars p b.
Proof.
  induction a as [|c a IH]; simpl; [reflexivity|].
  rewrite IH. apply andb_assoc.
Qed.

Lemma encoded_char_ok c :
  all_chars url_char
    (if always_safe c then String c ""
     else if Ascii.eqb c " " then "+" else percent c) = true.
Proof. each_byte c; vm_compute; reflexivity. Qed.

Lemma quote_plus_url_chars s : all_chars url_char (quote_plus s) = true.
Proof.
  rewrite quote_plus_eq.
  induction s as [|c t IH]; [reflexivity|].
  rewrite quote_space_step, all_chars_app, encoded_char_ok, IH. reflexivity.
Qed.

Lemma quote_plus_free d s : url_char d = false -> mem_char d (quote_plus s) = false.
Proof. apply all_chars_mem, quote_plus_url_chars. Qed.

(** Decoding undoes the encoding of one character, whatever follows. *)
Lemma unquote_step c t :
  unquote (replace_char "+" " " (replace_char " " "+" (quote " " (String c t))))
  = String c (unquote (replace_char "+" " " (replace_char " " "+" (quote " " t)))).
Proof. each_byte c; reflexivity. Qed.

Lemma unquote_quote_plus s : unquote (replace_char "+" " " (quote_plus s)) = s.
Proof.
  rewrite quote_plus_eq.
  induction s as [|c t IH]; [reflexivity|].
  rewrite unquote_step, IH. reflexivity.
Qed.

Lemma split1_app d a b :
  mem_char d a = false -> split1 d (a +:+ String d b) = (a, Some b).
Proof.
  induction a as [|c a IH]; simpl.
  - intros _. rewrite Ascii.eqb_refl. reflexivity.
  - intros H. apply orb_false_elim in H as [Hc Ha].
    rewrite Hc, (IH Ha). reflexivity.
Qed.

Lemma split1_none d a : mem_char d a = false -> split1 d a = (a, None).
Proof.
  induction a as [|c a IH]; simpl; [reflexivity|].
  intros H. apply orb_false_elim in H as [Hc Ha].
  rewrite Hc, (IH Ha). reflexivity.
Qed.

Lemma split_none d a : mem_char d a = false -> split d a = [a].
Proof.
  induction a as [|c a IH]; simpl; [reflexivity|].
  intros H. apply orb_false_elim in H as [Hc Ha].
  rewrite Hc, (IH Ha). reflexivity.
Qed.

Lemma split_app d a b :
  mem_char d a = false -> split d (a +:+ String d b) = a :: split d b.
Proof.
  induction a as [|c a IH]; simpl.
  - intros _. rewrite Ascii.eqb_refl. reflexivity.
  - intros H. apply orb_false_elim in H as [Hc Ha].
    rewrite Hc, (IH Ha). reflexivity.
Qed.

Section Urlencode.
Variable e : env.

Lemma encode_pair_has_equals kv : mem_char "=" (encode_pair e kv) = true.
Proof. unfold encode_pair. rewrite mem_char_app. simpl. apply orb_true_r. Qed.

Lemma encode_pair_free d kv :
  url_char d = false -> d <> "="%char -> mem_char d (encode_pair e kv) = false.
Proof.
  intros Hd Hne. unfold encode_pair.
  change ("=" +:+ ?x) with (String "=" x).
  rewrite mem_char_app, mem_char_String, !quote_plus_free by exact Hd.
  rewrite (proj2 (Ascii.eqb_neq _ _)) by congruence. reflexivity.
Qed.

Lemma parse_pair_encode kv : parse_pair true (encode_pair e kv) = [pair_text e kv].
Proof.
  unfold parse_pair.
  destruct (String.eqb_spec (encode_pair e kv) "") as [E|_].
  { pose proof (encode_pair_has_equals kv) as H. rewrite E in H. discriminate H. }
  unfold encode_pair. change ("=" +:+ ?x) with (String "=" x).
  rewrite split1_app by (apply quote_plus_free; reflexivity).
  rewrite orb_true_r, !unquote_quote_plus. reflexivity.
Qed.

Lemma urlencode_cons kv kvs :
  urlencode e (kv :: kvs) =
  match kvs with
  | [] => encode_pair e kv
  | _ :: _ => encode_pair e kv +:+ String "&" (urlencode e kvs)
  end.
Proof. destruct kvs; reflexivity. Qed.

Lemma urlencode_free d params :
  url_char d = false -> d <> "="%char -> d <> "&"%char ->
  mem_char d (urlencode e params) = false.
Proof.
  intros Hd He Ha. induction params as [|kv kvs IH]; [reflexivity|].
  rewrite urlencode_cons. destruct kvs as [|kv' kvs].
  - apply encode_pair_free; assumption.
  - rewrite mem_char_app, encode_pair_free, mem_char_String, IH by assumption.
    rewrite (proj2 (Ascii.eqb_neq _ _)) by congruence. reflexivity.
Qed.

Lemma urlencode_nonempty kv kvs : urlencode e (kv :: kvs) <> "".
Proof.
  intros E. apply (f_equal (mem_char "=")) in E.
  rewrite urlencode_cons in E.
  destruct kvs; [|rewrite mem_char_app in E];
    rewrite encode_pair_has_equals in E; discriminate E.
Qed.

Lemma split_urlencode kv kvs :
  flat_map (parse_pair true) (split "&" (urlencode e (kv :: kvs)))
  = map (pair_text e) (kv :: kvs).
Proof.
  revert kv. induction kvs as [|kv' kvs IH]; intros kv; rewrite urlencode_cons.
  - rewrite split_none by (apply encode_pair_free; [reflexivity|discriminate]).
    simpl. rewrite parse_pair_encode. reflexivity.
  - rewrite split_app by (apply encode_pair_free; [reflexivity|discriminate]).
    cbn [flat_map]. rewrite IH, parse_pair_encode. reflexivity.
Qed.

Lemma parse_qsl_urlencode params :
  parse_qsl true (urlencode e params) = map (pair_text e) params.
Proof.
  destruct params as [|kv kvs]; [reflexivity|].
  unfold parse_qsl.
  destruct (String.eqb_spec (urlencode e (kv :: kvs)) "") as [E|_].
  - destruct (urlencode_nonempty _ _ E).
  - apply split_urlencode.
Qed.

Lemma url_query_build params :
  url_query (build_recommendations_url e params) = urlencode e params.
Proof.
  unfold url_query.
  change (build_recommendations_url e params)
    with ("https://api.spotify.com/v1/recommendations"
          +:+ String "?" (urlencode e params)).
  rewrite split1_app by reflexivity. simpl.
  rewrite split1_none by (apply urlencode_free; [reflexivity|discriminate..]).
  reflexivity.
Qed.


(** When every value is a string the dictionary itself comes back. *)
Corollary query_text_roundtrip (params : list (string * string)) :
  parse_qsl true
    (url_query (build_recommendations_url e (map (fun kv => (fst kv, VStr (snd kv))) params)))
  = params.
Proof.
  rewrite url_query_build, parse_qsl_urlencode, map_map.
  induction params as [|[k v] l IH]; simpl; [reflexivity|].
  rewrite IH. reflexivity.
Qed.

Lemma int_of_text_str_of_int n : int_of_text (str_of_int n) = Some n.
Proof.
  unfold int_of_text, str_of_int.
  rewrite NilZero.isi.
  - simpl. rewrite DecimalZ.of_to. reflexivity.
  - destruct n; simpl; try discriminate.
    intros H. injection H as H. exact (DecimalPos.Unsigned.to_uint_nonnil _ H).
  - destruct n; simpl; try discriminate.
    intros H. injection H as H. exact (DecimalPos.Unsigned.to_uint_nonnil _ H).
Qed.

Lemma read_as_pair_text k kv :
  kind_of (snd kv) = Some k -> read_as k (pair_text e kv) = Some kv.
Proof.
  destruct kv as [name [| | n | |s | |]]; simpl; intros H; inversion H; subst.
  - unfold read_as. simpl. rewrite int_of_text_str_of_int. reflexivity.
  - reflexivity.
Qed.

(** X27. Strings and integers come back as they went in, each read at its
    own kind: decoding the query string of the URL and reading every value
    at the kind it had gives back the dictionary itself. *)
Corollary query_typed_roundtrip (params : list (string * pyval))
    (kinds : list kind) :
  kinds_of params = Some kinds ->
  read_all kinds (parse_qsl true (url_query (build_recommendations_url e params)))
  = Some params.
Proof.
  rewrite url_query_build, parse_qsl_urlencode.
  revert kinds. induction params as [|kv l IH]; intros kinds; simpl.
  - intros H. injection H as <-. reflexivity.
  - destruct (kind_of (snd kv)) as [k|] eqn:Hk; [|discriminate].
    destruct (kinds_of l) as [ks|]; [|discriminate].
    intros H. injection H as <-. simpl.
    rewrite (read_as_pair_text k kv Hk), (IH ks eq_refl). reflexivity.
Qed.

End Urlencode.

(** The default decoder drops the parameters whose value is blank. *)
Example default_decoder_drops_blank :
  parse_qsl false
    (url_query (build_recommendations_url (Scenario.at_page None 0)
                  [("seed_genres", VStr ""); ("limit", VInt 15)]))
  = [("limit", "15")].
Proof. reflexivity. Qed.

End urllib_facts.

(** ** Running a handler step by step *)

Lemma run_bind {A B} (m : M A) (f : A -> M B) (w : world) :
  (m ≫= f) w = match m w with
               | (Ok a, w') => f a w'
               | (Raise x, w') => (Raise x, w')
               end.
Proof. reflexivity. Qed.

Lemma run_ret {A} (a : A) (w : world) : (mret a : M A) w = (Ok a, w).
Proof. reflexivity. Qed.

Section Steps.
Variable e : env.
Context {B : Type}.

Lemma step_contains k (f : bool -> M B) w :
  (session_contains k ≫= f) w
  = f (match session w !! k with Some _ => true | None => false end) w.
Proof. reflexivity. Qed.

Lemma step_get k v (f : pyval -> M B) w :
  session w !! k = Some v -> (session_get k ≫= f) w = f v w.
Proof. intros H. rewrite run_bind. unfold session_get. rewrite H. reflexivity. Qed.

Lemma step_get_missing k (f : pyval -> M B) w :
  session w !! k = None ->
  (session_get k ≫= f) w = (Raise (KeyError (VStr k)), w).
Proof. intros H. rewrite run_bind. unfold session_get. rewrite H. reflexivity. Qed.

Lemma step_set k v (f : unit -> M B) w :
  (session_set k v ≫= f) w = f tt (store k v w).
Proof. reflexivity. Qed.

Lemma step_now (f : Q -> M B) w :
  (datetime_now_timestamp e ≫= f) w = f (clock e (ticks w)) (tick w).
Proof. reflexivity. Qed.

Lemma step_lift {A} (r : result A) (f : A -> M B) w :
  (lift r ≫= f) w = match r with Ok a => f a w | Raise x => (Raise x, w) end.
Proof. destruct r; reflexivity. Qed.

Lemma step_send rq (f : http_response -> M B) w :
  (send e rq ≫= f) w
  = match upstream e (sent w) rq with
    | Some r => f r (log rq w)
    | None => (Raise ConnectionError, log rq w)
    end.
Proof.
  rewrite run_bind. unfold send.
  destruct (upstream e (sent w) rq); reflexivity.
Qed.

End Steps.

Lemma pure_ret {A} (a : A) : pure (mret a : M A).
Proof. intros w. reflexivity. Qed.

Lemma pure_lift {A} (r : result A) : pure (lift r).
Proof. intros w. reflexivity. Qed.

Lemma pure_bind {A B} (m : M A) (f : A -> M B) :
  pure m -> (forall a, pure (f a)) -> pure (m ≫= f).
Proof.
  intros Hm Hf w. unfold after. rewrite run_bind.
  specialize (Hm w). unfold after in Hm.
  destruct (m w) as [[a|x] w']; simpl in Hm; subst w'; [apply Hf|reflexivity].
Qed.

Lemma pure_if {A} (b : bool) (m1 m2 : M A) :
  pure m1 -> pure m2 -> pure (if b then m1 else m2).
Proof. destruct b; auto. Qed.

Create HintDb pure_db.
#[local] Hint Resolve pure_ret pure_lift pure_if : pure_db.
#[local] Hint Extern 1 (pure (_ ≫= _)) => apply pure_bind; [|intros ?] : pure_db.

(** What follows the upstream call of a list page only reads the answer. *)
Ltac after_pure :=
  match goal with
  | |- context [snd (?m ?w')] =>
      let P := fresh "P" in
      assert (P : pure m) by auto 20 with pure_db;
      change (snd (m w')) with (after m w'); rewrite (P w'); clear P
  end.

Lemma float_gt_num x v y : num_of v = Some y -> float_gt x v = Ok (Qgtb x y).
Proof. unfold float_gt. intros ->. reflexivity. Qed.

Lemma Qgtb_false x y : (x <= y)%Q -> Qgtb x y = false.
Proof. intros H. unfold Qgtb. apply negb_false_iff, Qle_bool_iff, H. Qed.

Lemma Qgtb_true x y : (y < x)%Q -> Qgtb x y = true.
Proof.
  intros H. unfold Qgtb. apply negb_true_iff.
  destruct (Qle_bool x y) eqn:E; [|reflexivity].
  apply Qle_bool_iff in E. lra.
Qed.

Lemma multidict_get_contains d k v :
  multidict_get d k = Some v -> contains_key d k = true.
Proof.
  induction d as [|[k' v'] d IH]; simpl; [discriminate|].
  destruct (String.eqb k' k); [reflexivity|exact IH].
Qed.

(** ** The validity gate of the list pages *)

Section Gate.
Variable e : env.

Ltac open_handler ep :=
  destruct ep; unfold handler;
  [unfold get_top_artists | unfold get_top_tracks
  | unfold get_playlists | unfold get_song_suggestions].

Ltac pass_gate Ha He Hn Hgt :=
  rewrite step_contains, Ha; cbn [negb];
  rewrite step_now, (step_get "expires_at" _ _ (tick _) He);
  rewrite (float_gt_num _ _ _ Hn), Hgt, step_lift;
  rewrite (step_get "access_token" _ _ (tick _) Ha);
  unfold requests_get; rewrite step_send.

Lemma resource_is_not_token_endpoint ep : resource_url e ep <> TOKEN_URL.
Proof. destruct ep; discriminate. Qed.

(** Past an open gate the only change to the world is the clock reading
    and the one GET. *)
Lemma gate_open (ep : endpoint) (w : world) (token expires_at : pyval) (t : Q) :
  session w !! "access_token" = Some token ->
  session w !! "expires_at" = Some expires_at ->
  num_of expires_at = Some t ->
  (clock e (ticks w) <= t)%Q ->
  after (handler e ep) w = log (bearer_get e (resource_url e ep) token) (tick w).
Proof.
  intros Ha He Hn Hle.
  pose proof (Qgtb_false _ _ Hle) as Hgt.
  unfold after. open_handler ep; pass_gate Ha He Hn Hgt;
    (destruct (upstream e _ _) as [r|]; [|reflexivity]);
    after_pure; reflexivity.
Qed.

(** C2. A stored credential whose expiry lies after the current time passes
    the gate of every list page untouched: no session field is rewritten,
    and the one request sent is the GET of the page's resource, carrying
    the stored access token; it is not a call to the token endpoint. *)
Theorem valid_credential_passes_gate (ep : endpoint) (w : world)
    (token expires_at : pyval) (t : Q) :
  session w !! "access_token" = Some token ->
  session w !! "expires_at" = Some expires_at ->
  num_of expires_at = Some t ->
  (clock e (ticks w) < t)%Q ->
  session (after (handler e ep) w) = session w /\
  sent (after (handler e ep) w)
    = (sent w ++ [bearer_get e (resource_url e ep) token])%list /\
  resource_url e ep <> TOKEN_URL.
Proof.
  intros Ha He Hn Hlt.
  rewrite (gate_open ep w token expires_at t Ha He Hn) by lra.
  repeat split. apply resource_is_not_token_endpoint.
Qed.

(** X3. Without an access token every list page sends the browser to /login
    and does nothing else: nothing is sent, the clock is not read. *)
Lemma missing_credential_redirects (ep : endpoint) (w : world) :
  session w !! "access_token" = None ->
  handler e ep w = (Ok (Redirect "/login"), w).
Proof.
  intros Ha. open_handler ep; rewrite step_contains, Ha; reflexivity.
Qed.

(** X4. The gate of every list page sends a credential past its expiry to
    /refresh-token; the clock is read once and nothing is sent upstream. *)
Lemma expired_credential_redirects (ep : endpoint) (w : world)
    (token expires_at : pyval) (t : Q) :
  session w !! "access_token" = Some token ->
  session w !! "expires_at" = Some expires_at ->
  num_of expires_at = Some t ->
  (t < clock e (ticks w))%Q ->
  handler e ep w = (Ok (Redirect "/refresh-token"), tick w).
Proof.
  intros Ha He Hn Hlt.
  pose proof (Qgtb_true _ _ Hlt) as Hgt.
  open_handler ep;
    rewrite step_contains, Ha; cbn [negb];
    rewrite step_now, (step_get "expires_at" _ _ (tick _) He);
    rewrite (float_gt_num _ _ _ Hn), Hgt, step_lift; reflexivity.
Qed.

(** X5. The three pages that test the status (/artists, /tracks,
    /suggestions) send the browser to /login on every status other than
    200, without reading the body. *)
Lemma checked_pages_redirect_on_error (ep : endpoint) (w : world)
    (token expires_at : pyval) (t : Q) (r : http_response) :
  ep <> Playlists ->
  session w !! "access_token" = Some token ->
  session w !! "expires_at" = Some expires_at ->
  num_of expires_at = Some t ->
  (clock e (ticks w) <= t)%Q ->
  upstream e (sent w) (bearer_get e (resource_url e ep) token) = Some r ->
  status_code r <> 200%Z ->
  outcome (handler e ep) w = Ok (Redirect "/login").
Proof.
  intros Hep Ha He Hn Hle Hr Hs.
  pose proof (Qgtb_false _ _ Hle) as Hgt.
  apply Z.eqb_neq in Hs.
  unfold outcome. open_handler ep; try congruence;
    pass_gate Ha He Hn Hgt;
    unfold bearer_get, resource_url in Hr; cbn [sent tick] in *;
    rewrite Hr, Hs; reflexivity.
Qed.

End Gate.

(** ** The two handlers that write the credential *)

Section Exchange.
Variable e : env.

(** /refresh-token leaves the session alone and sends nothing, whatever the
    session, the clock and the upstream service are: the walk below ends at
    the guard on the key [refresh-token], at a missing key, at a clock that
    has not passed the expiry, or at [request.post]. *)
Lemma refresh_token_never_exchanges (w : world) :
  session (after (refresh_token e) w) = session w /\
  sent (after (refresh_token e) w) = sent w.
Proof.
  unfold after, refresh_token.
  rewrite step_contains.
  destruct (session w !! "refresh-token"); cbn [negb]; [|split; reflexivity].
  rewrite step_now.
  destruct (session w !! "expires_at") as [x|] eqn:He.
  2:{ rewrite (step_get_missing "expires_at" _ (tick w) He). split; reflexivity. }
  rewrite (step_get "expires_at" _ _ (tick w) He), step_lift.
  destruct (float_gt _ x) as [[|]|]; try (split; reflexivity).
  destruct (session w !! "refresh_token") as [rt|] eqn:Hr.
  2:{ rewrite (step_get_missing "refresh_token" _ (tick w) Hr). split; reflexivity. }
  rewrite (step_get "refresh_token" _ _ (tick w) Hr).
  unfold request_post. rewrite step_lift. split; reflexivity.
Qed.

(** A session written by /callback never has the key that /refresh-token
    tests, so the page it gets is the home page. *)
Lemma refresh_token_renders_home (w : world) :
  session w !! "refresh-token" = None ->
  refresh_token e w = (Ok (RenderTemplate "home_of_app.html" []), w).
Proof. intros H. unfold refresh_token. rewrite step_contains, H. reflexivity. Qed.


(** /callback writes the three keys of the credential and no other. *)
Lemma callback_writes_credential_keys_only (w : world) (k : string) :
  k <> "access_token" -> k <> "refresh_token" -> k <> "expires_at" ->
  session (after (callback e) w) !! k = session w !! k.
Proof.
  intros H1 H2 H3. unfold after, callback.
  destruct (contains_key (request_args e) "error").
  { rewrite step_lift. destruct (args_get e "error"); reflexivity. }
  destruct (contains_key (request_args e) "code"); [|reflexivity].
  rewrite step_lift. destruct (args_get e "code") as [code|]; [|reflexivity].
  unfold requests_post. rewrite step_send.
  destruct (upstream e (sent w) _) as [r|]; [|reflexivity].
  rewrite step_lift. destruct (response_json r) as [token_info|]; [|reflexivity].
  rewrite step_lift.
  destruct (getitem token_info "access_token") as [access|]; [|reflexivity].
  rewrite step_set, step_lift.
  destruct (getitem token_info "refresh_token") as [refresh|];
    [|cbn [snd store session log]; apply lookup_insert_ne; congruence].
  rewrite step_set, step_now, step_lift.
  destruct (getitem token_info "expires_in") as [expires_in|];
    [|cbn [snd store session log tick]; rewrite !lookup_insert_ne by congruence;
      reflexivity].
  rewrite step_lift.
  destruct (float_add _ expires_in) as [expires_at|];
    cbn [snd store session log tick]; [rewrite step_set, run_ret|];
    cbn [snd store session log tick]; rewrite !lookup_insert_ne by congruence;
    reflexivity.
Qed.

(** So after /callback on a session without the key [refresh-token],
    /refresh-token can only render the home page. *)
Lemma refresh_after_callback_renders_home (w : world) :
  session w !! "refresh-token" = None ->
  outcome (refresh_token e) (after (callback e) w)
    = Ok (RenderTemplate "home_of_app.html" []).
Proof.
  intros H. unfold outcome.
  rewrite refresh_token_renders_home; [reflexivity|].
  rewrite callback_writes_credential_keys_only by discriminate. exact H.
Qed.



End Exchange.

(** ** The artist search *)

Section Search.
Variable e : env.

(** Once the search is answered, what [get_artist_id] returns is a function
    of the answer alone. *)
Lemma get_artist_id_run (w : world) (name : string) (token : pyval)
    (r : http_response) :
  session w !! "access_token" = Some token ->
  upstream e (sent w) (search_request e name token) = Some r ->
  get_artist_id e name w =
  ((if (status_code r =? 200)%Z then
      data ← response_json r;
      artists ← getitem data "artists";
      items ← getitem artists "items";
      if truthy items then first ← getitem0 items; getitem first "id"
      else Ok VNone
    else Ok VNone),
   log (search_request e name token) w).
Proof.
  intros Ha Hr. unfold get_artist_id.
  rewrite (step_get "access_token" _ _ w Ha).
  unfold requests_get. rewrite step_send.
  change (upstream e (sent w) _)
    with (upstream e (sent w) (search_request e name token)).
  rewrite Hr.
  destruct (status_code r =? 200)%Z; [|reflexivity].
  destruct (response_json r) as [data|]; rewrite step_lift; [|reflexivity].
  cbn [mbind result_bind].
  destruct (getitem data "artists") as [artists|] eqn:Hd;
    rewrite step_lift; [|reflexivity].
  cbn [mbind result_bind].
  destruct (getitem artists "items") as [items|] eqn:Hi;
    rewrite step_lift; [|reflexivity].
  cbn [mbind result_bind].
  destruct (truthy items); [|reflexivity].
  rewrite step_lift; cbn beta iota. rewrite step_lift, Hi, step_lift.
  destruct (getitem0 items); reflexivity.
Qed.

(** C8. For a search answered with status 200 and a result list,
    [get_artist_id] returns [None], and does not raise, when the list is
    empty; when it is not, the result is the [id] entry of the first item,
    whatever the items after it are. *)
Theorem get_artist_id_first_or_none (w : world) (name : string) (token : pyval)
    (r : http_response) (data artists : pyval) (items : list pyval) :
  session w !! "access_token" = Some token ->
  upstream e (sent w) (search_request e name token) = Some r ->
  status_code r = 200%Z ->
  json_body r = Some data ->
  getitem data "artists" = Ok artists ->
  getitem artists "items" = Ok (VList items) ->
  outcome (get_artist_id e name) w =
  match items with
  | [] => Ok VNone
  | first :: _ => getitem first "id"
  end.
Proof.
  intros Ha Hr Hs Hj Hd Hi. unfold outcome.
  rewrite (get_artist_id_run w name token r Ha Hr), Hs.
  cbn [fst Z.eqb Pos.eqb].
  unfold response_json. rewrite Hj. cbn [mbind result_bind].
  rewrite Hd. cbn [mbind result_bind].
  rewrite Hi. cbn [mbind result_bind].
  destruct items; reflexivity.
Qed.

(** C10. When the search is answered with a status other than 200,
    [get_artist_id] returns [None], as it does for an empty result list,
    and /get-recommendations answers 404 with the body
    [{error: 'No artist found'}]. *)
Theorem failed_search_reported_as_not_found (w : world) (artist genre : string)
    (token : pyval) (r : http_response) :
  request_method e = "POST" ->
  multidict_get (request_form e) "artist" = Some artist ->
  multidict_get (request_form e) "genre" = Some genre ->
  session w !! "access_token" = Some token ->
  upstream e (sent w) (search_request e artist token) = Some r ->
  status_code r <> 200%Z ->
  outcome (get_artist_id e artist) w = Ok VNone /\
  outcome (get_recommendations e) w
    = Ok (Jsonify (VDict [("error", VStr "No artist found")]) 404).
Proof.
  intros Hm Hartist Hgenre Ha Hr Hs. apply Z.eqb_neq in Hs.
  pose proof (get_artist_id_run w artist token r Ha Hr) as Hrun.
  rewrite Hs in Hrun. split.
  - unfold outcome. rewrite Hrun. reflexivity.
  - unfold outcome, get_recommendations. rewrite Hm.
    cbn [String.eqb Ascii.eqb Bool.eqb].
    unfold try_except, form_get. rewrite Hartist, Hgenre, !step_lift.
    rewrite run_bind, Hrun. reflexivity.
Qed.

End Search.

(** ** The scenarios, run *)

Module Runs.
Import Scenario.

(** C1. The end-to-end scenario at T + 3601, one second past the expiry of
    the credential stored at T = 1000.  /artists sends the browser to
    /refresh-token; /refresh-token renders the home page: it sends nothing
    to the token endpoint and the stored expiry stays where it was, in the
    past, so the next visit to /artists is sent to /refresh-token again.
    The specification asks for one refresh exchange and a later expiry. *)
Theorem expired_credential_is_not_refreshed :
  outcome (get_top_artists page_expired) logged_in = Ok (Redirect "/refresh-token") /\
  outcome (refresh_token page_expired) logged_in
    = Ok (RenderTemplate "home_of_app.html" []) /\
  sent (after (refresh_token page_expired) logged_in) = [] /\
  session (after (refresh_token page_expired) logged_in) !! "expires_at"
    = Some (VFloat (1000 + inject_Z 3600)) /\
  outcome (get_top_artists page_expired) (after (refresh_token page_expired) logged_in)
    = Ok (Redirect "/refresh-token").
Proof. vm_compute. repeat split; reflexivity. Qed.

(** C6. With the refresh token RT1 stored and a token endpoint that would
    answer a refresh with AT2 and no refresh token, /refresh-token keeps
    RT1 but the access token is still AT1.  With the key [refresh-token]
    also in the session the handler goes on to [request.post] and raises,
    again before any write.  The specification asks for AT2 and a new
    expiry. *)
Theorem refresh_stores_no_new_token :
  (outcome (refresh_token page_expired) logged_in
     = Ok (RenderTemplate "home_of_app.html" []) /\
   session (after (refresh_token page_expired) logged_in) !! "access_token"
     = Some (VStr "AT1") /\
   session (after (refresh_token page_expired) logged_in) !! "refresh_token"
     = Some (VStr "RT1")) /\
  (outcome (refresh_token page_expired) logged_in_hyphen
     = Raise (AttributeError "post") /\
   sent (after (refresh_token page_expired) logged_in_hyphen) = [] /\
   session (after (refresh_token page_expired) logged_in_hyphen) !! "access_token"
     = Some (VStr "AT1")).
Proof. vm_compute. repeat split; reflexivity. Qed.

(** C5. /callback on a failed exchange.  A 400 answer with an error
    document raises KeyError; an answer that has only [access_token] stores
    that token and then raises, leaving a session with a token and no
    expiry; the second use of a code, refused by the token endpoint, raises
    KeyError.  The specification asks for an error result that carries the
    answer, and for no partial credential. *)
Theorem failed_exchange_raises :
  outcome (callback exchange_refused) fresh = Raise (KeyError (VStr "access_token")) /\
  (outcome (callback exchange_partial) fresh = Raise (KeyError (VStr "refresh_token")) /\
   session (after (callback exchange_partial) fresh) !! "access_token"
     = Some (VStr "AT1") /\
   session (after (callback exchange_partial) fresh) !! "expires_at" = None) /\
  (outcome (callback exchange_once) fresh = Ok (Redirect "/home") /\
   outcome (callback exchange_once) (after (callback exchange_once) fresh)
     = Raise (KeyError (VStr "access_token"))).
Proof. vm_compute. repeat split; reflexivity. Qed.

(** C7. /playlists with a valid credential and an upstream answer of status
    401: the handler raises KeyError where /artists, on the same answer,
    redirects to /login; and an answer of status 500 that has an [items]
    list is rendered.  The specification asks for a redirect to /login on
    every status other than 200. *)
Theorem playlists_ignores_the_status :
  (outcome (get_playlists page_refused) logged_in = Raise (KeyError (VStr "items")) /\
   outcome (get_top_artists page_refused) logged_in = Ok (Redirect "/login")) /\
  outcome (get_playlists page_failed_with_items) logged_in
    = Ok (RenderTemplate "playlists.html" [("playlists", VList [])]).
Proof. vm_compute. repeat split; reflexivity. Qed.

Lemma valid_credential_passes_gate_witness :
  session (after (handler page_valid Artists) logged_in) = session logged_in /\
  sent (after (handler page_valid Artists) logged_in)
    = (sent logged_in
       ++ [bearer_get page_valid (resource_url page_valid Artists) (VStr "AT1")])%list /\
  resource_url page_valid Artists <> TOKEN_URL.
Proof.
  apply (valid_credential_passes_gate page_valid Artists logged_in (VStr "AT1")
           (VFloat (1000 + inject_Z 3600)) (1000 + inject_Z 3600));
    vm_compute; reflexivity.
Defined.



Lemma get_artist_id_first_or_none_witness :
  outcome (get_artist_id search_found "Muse") logged_in = Ok (VStr "A1").
Proof.
  apply (get_artist_id_first_or_none search_found logged_in "Muse" (VStr "AT1")
           {| status_code := 200;
              json_body := Some (found [artist "A1"; artist "A2"]) |}
           (found [artist "A1"; artist "A2"])
           (VDict [("items", VList [artist "A1"; artist "A2"])])
           [artist "A1"; artist "A2"]);
    vm_compute; reflexivity.
Defined.

Lemma failed_search_reported_as_not_found_witness :
  outcome (get_artist_id search_refused "Muse") logged_in = Ok VNone /\
  outcome (get_recommendations search_refused) logged_in
    = Ok (Jsonify (VDict [("error", VStr "No artist found")]) 404).
Proof.
  apply (failed_search_reported_as_not_found search_refused logged_in "Muse" "rock"
           (VStr "AT1") {| status_code := 401; json_body := Some api_error |});
    try (vm_compute; reflexivity).
  discriminate.
Defined.

End Runs.

(** * Further properties of the handlers *)

(** ** What the reading views do to the world *)

Section Reads.
Variable e : env.

Lemma bearer_request_session (w w' : world) (rq : http_request) :
  session w' = session w -> bearer_request e w' rq -> bearer_request e w rq.
Proof.
  intros Hs (token & url & Ht & Hrq & Hp). exists token, url.
  rewrite <- Hs. auto.
Qed.

Lemma reads_here {A} (n : nat) (m : M A) (w : world) :
  after m w = w -> reads e n m w.
Proof.
  intros H. unfold reads. rewrite H. split; [reflexivity|].
  exists []. rewrite app_nil_r. repeat split; [simpl; lia|constructor].
Qed.

Lemma reads_ret {A} (n : nat) (a : A) (w : world) : reads e n (mret a) w.
Proof. apply reads_here. reflexivity. Qed.

Lemma reads_lift {A} (n : nat) (r : result A) (w : world) : reads e n (lift r) w.
Proof. apply reads_here. reflexivity. Qed.

Lemma reads_weaken {A} (n n' : nat) (m : M A) (w : world) :
  (n <= n')%nat -> reads e n m w -> reads e n' m w.
Proof.
  intros Hn (Hs & l & Hl & Hlen & HP). split; [exact Hs|].
  exists l. repeat split; [exact Hl|lia|exact HP].
Qed.

Lemma reads_lift_bind {A B} (n : nat) (r : result A) (f : A -> M B) (w : world) :
  (forall a, reads e n (f a) w) -> reads e n (lift r ≫= f) w.
Proof.
  intros H. destruct r as [a|x].
  - unfold reads, after. rewrite step_lift. apply H.
  - apply reads_here. unfold after. rewrite step_lift. reflexivity.
Qed.

Lemma reads_contains {B} (n : nat) k (f : bool -> M B) (w : world) :
  (forall b, reads e n (f b) w) -> reads e n (session_contains k ≫= f) w.
Proof. intros H. unfold reads, after. rewrite step_contains. apply H. Qed.

Lemma reads_get {B} (n : nat) k (f : pyval -> M B) (w : world) :
  (forall v, session w !! k = Some v -> reads e n (f v) w) ->
  reads e n (session_get k ≫= f) w.
Proof.
  intros H. destruct (session w !! k) as [v|] eqn:Hk.
  - unfold reads, after. rewrite (step_get k v f w Hk). apply (H v eq_refl).
  - apply reads_here. unfold after. rewrite (step_get_missing k f w Hk). reflexivity.
Qed.

Lemma reads_now {B} (n : nat) (f : Q -> M B) (w : world) :
  (forall t, reads e n (f t) (tick w)) ->
  reads e n (datetime_now_timestamp e ≫= f) w.
Proof.
  intros H. unfold reads, after. rewrite step_now.
  exact (H (clock e (ticks w))).
Qed.

Lemma reads_send {B} (n : nat) rq (f : http_response -> M B) (w : world) :
  bearer_request e w rq ->
  (forall r, reads e n (f r) (log rq w)) ->
  reads e (S n) (send e rq ≫= f) w.
Proof.
  intros Hrq H. unfold reads, after. rewrite step_send.
  destruct (upstream e (sent w) rq) as [r|].
  - destruct (H r) as (Hs & l & Hl & Hlen & HP). split; [exact Hs|].
    exists (rq :: l). unfold after in Hl. rewrite Hl. cbn [sent log].
    rewrite <- app_assoc. repeat split; [simpl; lia|].
    constructor; [exact Hrq|exact HP].
  - split; [reflexivity|]. exists [rq]. repeat split; [simpl; lia|].
    constructor; [exact Hrq|constructor].
Qed.

Lemma reads_bind {A B} (n1 n2 : nat) (m : M A) (f : A -> M B) (w : world) :
  reads e n1 m w ->
  (forall a w', session w' = session w -> reads e n2 (f a) w') ->
  reads e (n1 + n2) (m ≫= f) w.
Proof.
  intros (Hs & l1 & Hl1 & Hlen1 & HP1) H. unfold reads, after in *.
  rewrite run_bind. destruct (m w) as [[a|x] w1]; cbn [snd] in *.
  - destruct (H a w1 Hs) as (Hs2 & l2 & Hl2 & Hlen2 & HP2).
    split; [congruence|]. exists (l1 ++ l2)%list.
    rewrite Hl2, Hl1, <- app_assoc. repeat split.
    + rewrite length_app. lia.
    + apply Forall_app. split; [exact HP1|].
      eapply Forall_impl; [exact HP2|].
      intros rq. apply bearer_request_session, Hs.
  - split; [exact Hs|]. exists l1. repeat split; [exact Hl1|lia|exact HP1].
Qed.

Lemma reads_try_except {A} (n : nat) (body : M A) (h : exn -> M A) (w : world) :
  reads e n body w -> (forall x, pure (h x)) -> reads e n (try_except body h) w.
Proof.
  intros (Hs & l & Hl & Hlen & HP) Hh. unfold reads, after, try_except in *.
  destruct (body w) as [[a|x] w1]; cbn [snd] in *.
  - split; [exact Hs|]. exists l. auto.
  - specialize (Hh x w1). unfold after in Hh. rewrite Hh.
    split; [exact Hs|]. exists l. auto.
Qed.

Ltac reads_step :=
  first
    [ apply reads_ret
    | apply reads_lift
    | apply reads_lift_bind; intros ?
    | apply reads_contains; intros ?
    | apply reads_get; intros ? ?
    | apply reads_now; intros ?
    | apply reads_send;
      [ eexists _, _; split; [eassumption|split; reflexivity] | intros ? ]
    | match goal with
      | |- reads _ _ (if ?b then _ else _) _ => destruct b
      end ].

Lemma get_artist_id_reads (name : string) (w : world) :
  reads e 1 (get_artist_id e name) w.
Proof. unfold get_artist_id, requests_get. repeat reads_step. Qed.

Lemma reader_view_reads (r : reader) (w : world) :
  reads e (max_requests r) (reader_view e r) w.
Proof.
  destruct r as [| | |ep| |]; cbn [reader_view max_requests].
  - apply reads_ret.
  - apply reads_ret.
  - apply reads_ret.
  - destruct ep; cbn [handler];
      [unfold get_top_artists|unfold get_top_tracks
      |unfold get_playlists|unfold get_song_suggestions];
      unfold requests_get; repeat reads_step.
  - unfold get_custom_recommendations. repeat reads_step.
    apply (reads_bind 1 1); [apply get_artist_id_reads|].
    intros id w' Hs. destruct (truthy id); [|apply reads_ret].
    unfold requests_get. apply reads_send.
    { eexists _, _. split; [rewrite Hs; eassumption|split; reflexivity]. }
    intros ?. repeat reads_step.
  - unfold get_recommendations. destruct (String.eqb _ _); [|apply reads_ret].
    apply reads_try_except; [|intros x; apply pure_ret].
    repeat reads_step.
    apply (reads_bind 1 1); [apply get_artist_id_reads|].
    intros id w' Hs. destruct (truthy id); [|apply reads_ret].
    unfold requests_get. repeat reads_step.
Qed.

End Reads.

Section ReadingViews.
Variable e : env.

(** X1. Every view function other than /callback and /refresh-token (the three
    static pages, the four list pages, /custom-recommendations and
    /get-recommendations) leaves the session exactly as it found it, on
    every path, raising or not. *)
Theorem reading_views_keep_session (r : reader) (w : world) :
  session (after (reader_view e r) w) = session w.
Proof. apply (reader_view_reads e r w). Qed.

(** X2. The same views only add to the log of upstream requests: none for the
    static pages, at most one for a list page, at most two for the two
    recommendation views; and each request added is a GET below the API
    base that carries 'Bearer' and the access token of the session. *)
Theorem reading_views_send_bearer_gets (r : reader) (w : world) :
  exists l,
    sent (after (reader_view e r) w) = (sent w ++ l)%list /\
    (length l <= max_requests r)%nat /\
    forall rq, In rq l ->
      exists token url,
        session w !! "access_token" = Some token /\
        rq = bearer_get e url token /\
        String.prefix API_BASE_URL url = true.
Proof.
  destruct (reader_view_reads e r w) as (_ & l & Hl & Hlen & HP).
  exists l. repeat split; [exact Hl|exact Hlen|].
  intros rq Hin. rewrite Forall_forall in HP.
  apply HP. apply list_elem_of_In, Hin.
Qed.

End ReadingViews.

(** ** The gate at its edges *)

Section GateEdges.
Variable e : env.

(** X6. The gate compares with a strict [>]: at the very instant of the expiry
    the list page still sends its GET with the stored token. *)
Theorem gate_lets_through_at_expiry (ep : endpoint) (w : world)
    (token expires_at : pyval) (t : Q) :
  session w !! "access_token" = Some token ->
  session w !! "expires_at" = Some expires_at ->
  num_of expires_at = Some t ->
  (clock e (ticks w) == t)%Q ->
  sent (after (handler e ep) w)
    = (sent w ++ [bearer_get e (resource_url e ep) token])%list.
Proof.
  intros Ha He Hn Heq.
  rewrite (gate_open e ep w token expires_at t Ha He Hn) by (rewrite Heq; apply Qle_refl).
  reflexivity.
Qed.

(** X7. A session that has an access token and no [expires_at] makes each list
    page raise KeyError('expires_at'), after the clock is read and before
    anything is sent. *)
Theorem token_without_expiry_raises (ep : endpoint) (w : world) (token : pyval) :
  session w !! "access_token" = Some token ->
  session w !! "expires_at" = None ->
  handler e ep w = (Raise (KeyError (VStr "expires_at")), tick w).
Proof.
  intros Ha He.
  destruct ep; unfold handler;
    [unfold get_top_artists|unfold get_top_tracks
    |unfold get_playlists|unfold get_song_suggestions];
    rewrite step_contains, Ha; cbn [negb];
    rewrite step_now; apply (step_get_missing "expires_at" _ (tick w) He).
Qed.

End GateEdges.

(** ** The rows of a list page *)



Lemma mapR_some_raise {A B} (f : A -> result B) (l : list A) (item : A) (x : exn) :
  In item l -> f item = Raise x -> exists x', mapR f l = Raise x'.
Proof.
  induction l as [|a l IH]; simpl; [intros []|].
  intros [->|Hin] Hx.
  - rewrite Hx. exists x. reflexivity.
  - destruct (f a) as [y|x1]; [|exists x1; reflexivity].
    destruct (IH Hin Hx) as [x' ->]. exists x'. reflexivity.
Qed.

Section Rows.
Variable e : env.

Ltac pass_gate Ha He Hn Hgt :=
  rewrite step_contains, Ha; cbn [negb];
  rewrite step_now, (step_get "expires_at" _ _ (tick _) He);
  rewrite (float_gt_num _ _ _ Hn), Hgt, step_lift;
  rewrite (step_get "access_token" _ _ (tick _) Ha);
  unfold requests_get; rewrite step_send.



(** X9. The picture of an artist row is [None] when the artist has no image,
    without an IndexError, and the [url] of the first image otherwise. *)
Theorem artist_picture_is_first_image_or_none
    (artist name popularity genres : pyval) (images : list pyval) :
  getitem artist "name" = Ok name ->
  getitem artist "images" = Ok (VList images) ->
  getitem artist "popularity" = Ok popularity ->
  getitem artist "genres" = Ok genres ->
  artist_row artist =
    match images with
    | [] => Ok (VDict [("name", name); ("picture", VNone);
                       ("popularity", popularity); ("genres", genres)])
    | first :: _ =>
        url ← getitem first "url";
        Ok (VDict [("name", name); ("picture", url);
                   ("popularity", popularity); ("genres", genres)])
    end.
Proof.
  intros Hn Hi Hp Hg. unfold artist_row.
  rewrite Hn, Hi. cbn [mbind result_bind].
  destruct images as [|first rest]; cbn [truthy mbind result_bind getitem0 mret result_ret].
  - rewrite Hp, Hg. reflexivity.
  - destruct (getitem first "url"); cbn [mbind result_bind]; [|reflexivity].
    rewrite Hp, Hg. reflexivity.
Qed.

(** A recommended track whose [artists] list is empty makes the row raise
    IndexError: the first artist is taken without a test, unlike the first
    image of an artist. *)
Lemma suggestion_without_artists_raises (item name : pyval) :
  getitem item "name" = Ok name ->
  getitem item "artists" = Ok (VList []) ->
  suggestion_row item = Raise IndexError.
Proof. intros Hn Ha. unfold suggestion_row. rewrite Hn, Ha. reflexivity. Qed.

End Rows.

(** ** /callback beyond the successful exchange *)

Section CallbackEdges.
Variable e : env.

(** X10. An [error] argument wins over everything else in /callback: the answer
    is the JSON document [{error: <the argument>}], nothing is sent to the
    token endpoint and the session is untouched, also when a [code] comes
    with it. *)
Theorem callback_reports_error_first (w : world) (err : string) :
  multidict_get (request_args e) "error" = Some err ->
  callback e w = (Ok (Jsonify (VDict [("error", VStr err)]) 200), w).
Proof.
  intros H. unfold callback, args_get.
  rewrite (multidict_get_contains _ _ _ H), H, step_lift. reflexivity.
Qed.

(** X11. With a [code] and no [error], /callback sends the exchange request for
    that code once and nothing else, whatever the token endpoint answers
    and wherever the handler stops. *)
Theorem callback_sends_one_exchange (w : world) (code : string) :
  contains_key (request_args e) "error" = false ->
  multidict_get (request_args e) "code" = Some code ->
  sent (after (callback e) w) = (sent w ++ [exchange_request e code])%list.
Proof.
  intros Herr Hcode. unfold after, callback, args_get.
  rewrite Herr, (multidict_get_contains _ _ _ Hcode), Hcode, step_lift.
  unfold requests_post. rewrite step_send. fold (exchange_request e code).
  destruct (upstream e (sent w) _) as [r|]; [|reflexivity].
  rewrite step_lift. destruct (response_json r) as [token_info|]; [|reflexivity].
  rewrite step_lift.
  destruct (getitem token_info "access_token") as [access|]; [|reflexivity].
  rewrite step_set, step_lift.
  destruct (getitem token_info "refresh_token") as [refresh|]; [|reflexivity].
  rewrite step_set, step_now, step_lift.
  destruct (getitem token_info "expires_in") as [expires_in|]; [|reflexivity].
  rewrite step_lift.
  destruct (float_add _ expires_in) as [expires_at|]; reflexivity.
Qed.

(** X12. /callback and /refresh-token leave every session key other than
    [access_token], [refresh_token] and [expires_at] as it was, on every
    path. *)
Theorem exchange_touches_credential_keys_only (x : exchange) (w : world) (k : string) :
  k <> "access_token" -> k <> "refresh_token" -> k <> "expires_at" ->
  session (after (exchange_handler e x) w) !! k = session w !! k.
Proof.
  intros H1 H2 H3. destruct x; cbn [exchange_handler].
  - apply callback_writes_credential_keys_only; assumption.
  - destruct (refresh_token_never_exchanges e w) as [-> _]. reflexivity.
Qed.

End CallbackEdges.

(** ** /get-recommendations and /custom-recommendations *)

Lemma returns_ret {A} (Q : A -> Prop) (a : A) : Q a -> returns Q (mret a).
Proof. intros H w b E. injection E as <-. exact H. Qed.

Lemma returns_bind {A B} (Q : B -> Prop) (m : M A) (f : A -> M B) :
  (forall a, returns Q (f a)) -> returns Q (m ≫= f).
Proof.
  intros H w b. unfold outcome. rewrite run_bind.
  destruct (m w) as [[a|x] w1]; [apply H|discriminate].
Qed.

Lemma returns_if {A} (Q : A -> Prop) (b : bool) (m1 m2 : M A) :
  returns Q m1 -> returns Q m2 -> returns Q (if b then m1 else m2).
Proof. destruct b; auto. Qed.

Lemma json_answer_intro body status :
  (status = 200 \/ status = 400 \/ status = 404 \/ status = 500)%Z ->
  json_answer (Jsonify body status).
Proof. intros H. exists body, status. auto. Qed.

Section Recommendations.
Variable e : env.

Lemma get_artist_id_answered (w : world) (name : string) (token : pyval)
    (r : http_response) :
  session w !! "access_token" = Some token ->
  upstream e (sent w) (search_request e name token) = Some r ->
  get_artist_id e name w = (search_result r, log (search_request e name token) w).
Proof. apply get_artist_id_run. Qed.

(** X13. /get-recommendations never raises: every run ends in a JSON answer
    whose status is 200, 400, 404 or 500. *)
Theorem get_recommendations_always_answers_json (w : world) :
  exists v, outcome (get_recommendations e) w = Ok v /\ json_answer v.
Proof.
  unfold outcome, get_recommendations.
  destruct (String.eqb (request_method e) "POST").
  2:{ eexists. split; [reflexivity|]. apply json_answer_intro. auto. }
  unfold try_except.
  match goal with |- context [match ?body w with _ => _ end] =>
    assert (R : returns json_answer body);
    [|specialize (R w); unfold outcome in R; destruct (body w) as [[v|x] w1]]
  end.
  - repeat (apply returns_bind; intros ?).
    repeat (apply returns_if);
      try (apply returns_ret, json_answer_intro; auto).
    repeat (apply returns_bind; intros ?).
    repeat (apply returns_if);
      try (apply returns_ret, json_answer_intro; auto).
    repeat (apply returns_bind; intros ?).
    apply returns_ret, json_answer_intro; auto.
  - exists v. split; [reflexivity|]. apply R. reflexivity.
  - eexists. split; [reflexivity|]. apply json_answer_intro. auto.
Qed.

(** X14. A POST to /get-recommendations without the [artist] field, without the
    [genre] field or without an access token in the session is answered
    500 with the processing-error body, and nothing is sent upstream. *)
Theorem get_recommendations_incomplete_request_is_500 (w : world) :
  request_method e = "POST" ->
  multidict_get (request_form e) "artist" = None \/
  multidict_get (request_form e) "genre" = None \/
  session w !! "access_token" = None ->
  get_recommendations e w =
    (Ok (Jsonify (VDict [("error", VStr "An error occurred while processing the request")])
           500), w).
Proof.
  intros Hm H. unfold get_recommendations. rewrite Hm.
  cbn [String.eqb Ascii.eqb Bool.eqb]. unfold try_except, form_get.
  destruct (multidict_get (request_form e) "artist") as [artist|];
    rewrite step_lift; [|reflexivity].
  destruct (multidict_get (request_form e) "genre") as [genre|];
    rewrite step_lift; [|reflexivity].
  destruct H as [H|[H|H]]; try discriminate H.
  rewrite run_bind. unfold get_artist_id.
  rewrite (step_get_missing "access_token" _ w H). reflexivity.
Qed.

(** X15. When the search yields a truthy artist id, /get-recommendations sends
    the search and then one recommendations request built from that id, the
    genre and the popularity bounds of the form.  A 200 answer gives the
    list of rows with status 200, or status 500 when the answer cannot be
    read into rows; any other status gives 400 with the fetching-error
    body. *)
Theorem get_recommendations_found (w : world) (artist genre : string)
    (token id : pyval) (r1 r2 : http_response) :
  request_method e = "POST" ->
  multidict_get (request_form e) "artist" = Some artist ->
  multidict_get (request_form e) "genre" = Some genre ->
  session w !! "access_token" = Some token ->
  upstream e (sent w) (search_request e artist token) = Some r1 ->
  search_result r1 = Ok id ->
  truthy id = true ->
  upstream e (sent w ++ [search_request e artist token])
    (recommendations_request e id genre token) = Some r2 ->
  outcome (get_recommendations e) w =
    Ok (if (status_code r2 =? 200)%Z then
          match suggestion_rows r2 with
          | Ok rows => Jsonify (VList rows) 200
          | Raise _ =>
              Jsonify (VDict [("error", VStr "An error occurred while processing the request")])
                500
          end
        else
          Jsonify (VDict [("error", VStr "An error occurred while fetching recommendations")])
            400) /\
  sent (after (get_recommendations e) w)
    = (sent w ++ [search_request e artist token;
                  recommendations_request e id genre token])%list.
Proof.
  intros Hm Hartist Hgenre Ha Hr1 Hid Ht Hr2.
  pose proof (get_artist_id_answered w artist token r1 Ha Hr1) as Hrun.
  rewrite Hid in Hrun.
  unfold outcome, after, get_recommendations. rewrite Hm.
  cbn [String.eqb Ascii.eqb Bool.eqb].
  unfold try_except, form_get. rewrite Hartist, Hgenre, !step_lift.
  rewrite run_bind, Hrun, Ht.
  rewrite (step_get "access_token" _ _ (log _ w) Ha).
  unfold requests_get. rewrite step_send. cbn [sent log].
  change (upstream e _ _)
    with (upstream e (sent w ++ [search_request e artist token])
            (recommendations_request e id genre token)).
  rewrite Hr2.
  change (log {| rq_method := GET; rq_url := _; rq_headers := _; rq_data := _ |} ?w')
    with (log (recommendations_request e id genre token) w').
  assert (Hsent : sent (log (recommendations_request e id genre token)
                           (log (search_request e artist token) w))
                  = (sent w ++ [search_request e artist token;
                                recommendations_request e id genre token])%list).
  { cbn [sent log]. rewrite <- app_assoc. reflexivity. }
  destruct (status_code r2 =? 200)%Z; [|split; [reflexivity|exact Hsent]].
  unfold suggestion_rows.
  destruct (response_json r2) as [data|]; rewrite step_lift; cbn [mbind result_bind];
    [|split; [reflexivity|exact Hsent]].
  destruct (getitem data "tracks") as [tracks|]; rewrite step_lift; cbn [mbind result_bind];
    [|split; [reflexivity|exact Hsent]].
  destruct (py_iter tracks) as [l|]; rewrite step_lift; cbn [mbind result_bind];
    [|split; [reflexivity|exact Hsent]].
  destruct (mapR suggestion_row l) as [rows|]; rewrite step_lift;
    split; first [reflexivity|exact Hsent].
Qed.

(** X18. One unreadable track spoils the whole answer: when the
    recommendations answer of a found artist is a 200 whose track list
    holds a track with an empty [artists] list, /get-recommendations
    answers 500 and returns none of the other tracks. *)
Theorem get_recommendations_one_bad_track_is_500 (w : world) (artist genre : string)
    (token id : pyval) (r1 r2 : http_response)
    (data item name : pyval) (tracks : list pyval) :
  request_method e = "POST" ->
  multidict_get (request_form e) "artist" = Some artist ->
  multidict_get (request_form e) "genre" = Some genre ->
  session w !! "access_token" = Some token ->
  upstream e (sent w) (search_request e artist token) = Some r1 ->
  search_result r1 = Ok id ->
  truthy id = true ->
  upstream e (sent w ++ [search_request e artist token])
    (recommendations_request e id genre token) = Some r2 ->
  status_code r2 = 200%Z ->
  json_body r2 = Some data ->
  getitem data "tracks" = Ok (VList tracks) ->
  In item tracks ->
  getitem item "name" = Ok name ->
  getitem item "artists" = Ok (VList []) ->
  outcome (get_recommendations e) w =
    Ok (Jsonify (VDict [("error", VStr "An error occurred while processing the request")])
          500).
Proof.
  intros Hm Hartist Hgenre Ha Hr1 Hid Ht Hr2 Hs Hj Htr Hin Hn Hart.
  pose proof (get_artist_id_answered w artist token r1 Ha Hr1) as Hrun.
  rewrite Hid in Hrun.
  destruct (mapR_some_raise suggestion_row tracks item IndexError Hin
              (suggestion_without_artists_raises item name Hn Hart)) as [x' Hrows].
  unfold outcome, get_recommendations. rewrite Hm.
  cbn [String.eqb Ascii.eqb Bool.eqb].
  unfold try_except, form_get. rewrite Hartist, Hgenre, !step_lift.
  rewrite run_bind, Hrun, Ht.
  rewrite (step_get "access_token" _ _ (log _ w) Ha).
  unfold requests_get. rewrite step_send. cbn [sent log].
  change (upstream e _ _)
    with (upstream e (sent w ++ [search_request e artist token])
            (recommendations_request e id genre token)).
  rewrite Hr2, Hs. cbn [Z.eqb Pos.eqb].
  unfold response_json. rewrite Hj, step_lift, Htr, step_lift.
  cbn [py_iter]. rewrite step_lift, Hrows, step_lift. reflexivity.
Qed.

End Recommendations.

Section NotFound.
Variable e : env.

(** X16. Whatever falsy value the search yields as the artist id ([None] for an
    empty list or a failed search, but also an empty string or 0 as [id]),
    /get-recommendations answers 404 'No artist found' after that one
    request. *)
Theorem get_recommendations_not_found (w : world) (artist genre : string)
    (token id : pyval) (r : http_response) :
  request_method e = "POST" ->
  multidict_get (request_form e) "artist" = Some artist ->
  multidict_get (request_form e) "genre" = Some genre ->
  session w !! "access_token" = Some token ->
  upstream e (sent w) (search_request e artist token) = Some r ->
  search_result r = Ok id ->
  truthy id = false ->
  get_recommendations e w =
    (Ok (Jsonify (VDict [("error", VStr "No artist found")]) 404),
     log (search_request e artist token) w).
Proof.
  intros Hm Hartist Hgenre Ha Hr Hid Ht.
  pose proof (get_artist_id_answered e w artist token r Ha Hr) as Hrun.
  rewrite Hid in Hrun.
  unfold get_recommendations. rewrite Hm.
  cbn [String.eqb Ascii.eqb Bool.eqb].
  unfold try_except, form_get. rewrite Hartist, Hgenre, !step_lift.
  rewrite run_bind, Hrun, Ht. reflexivity.
Qed.

(** X17. /custom-recommendations has no guard on the session: without an access
    token it raises KeyError('access_token'), for every method and form,
    where the list pages redirect to /login. *)
Theorem custom_recommendations_needs_token (w : world) :
  session w !! "access_token" = None ->
  get_custom_recommendations e w = (Raise (KeyError (VStr "access_token")), w).
Proof.
  intros H. unfold get_custom_recommendations.
  apply (step_get_missing "access_token" _ w H).
Qed.

(** X19. When the search yields a falsy artist id, /custom-recommendations
    renders the empty form page: no error is reported, where
    /get-recommendations answers 404. *)
Theorem custom_recommendations_not_found_is_silent (w : world)
    (artist genre : string) (token id : pyval) (r : http_response) :
  request_method e = "POST" ->
  multidict_get (request_form e) "artist" = Some artist ->
  multidict_get (request_form e) "genre" = Some genre ->
  session w !! "access_token" = Some token ->
  upstream e (sent w) (search_request e artist token) = Some r ->
  search_result r = Ok id ->
  truthy id = false ->
  get_custom_recommendations e w =
    (Ok (RenderTemplate "custom_recommendations.html" []),
     log (search_request e artist token) w).
Proof.
  intros Hm Hartist Hgenre Ha Hr Hid Ht.
  pose proof (get_artist_id_answered e w artist token r Ha Hr) as Hrun.
  rewrite Hid in Hrun.
  unfold get_custom_recommendations.
  rewrite (step_get "access_token" _ _ w Ha), Hm.
  cbn [String.eqb Ascii.eqb Bool.eqb].
  unfold form_get. rewrite Hartist, Hgenre, !step_lift.
  rewrite run_bind, Hrun, Ht. reflexivity.
Qed.

(** X20. When the search yields a truthy artist id, /custom-recommendations
    renders the rows of a 200 answer (and raises what reading the rows
    raises: there is no [try]); any other status gives the JSON answer 400
    with the fetching-error body. *)
Theorem custom_recommendations_found (w : world) (artist genre : string)
    (token id : pyval) (r1 r2 : http_response) :
  request_method e = "POST" ->
  multidict_get (request_form e) "artist" = Some artist ->
  multidict_get (request_form e) "genre" = Some genre ->
  session w !! "access_token" = Some token ->
  upstream e (sent w) (search_request e artist token) = Some r1 ->
  search_result r1 = Ok id ->
  truthy id = true ->
  upstream e (sent w ++ [search_request e artist token])
    (recommendations_request e id genre token) = Some r2 ->
  outcome (get_custom_recommendations e) w =
    if (status_code r2 =? 200)%Z then
      rows ← suggestion_rows r2;
      Ok (RenderTemplate "custom_recommendations.html" [("data", VList rows)])
    else
      Ok (Jsonify (VDict [("error", VStr "An error occurred while fetching recommendations")])
            400).
Proof.
  intros Hm Hartist Hgenre Ha Hr1 Hid Ht Hr2.
  pose proof (get_artist_id_answered e w artist token r1 Ha Hr1) as Hrun.
  rewrite Hid in Hrun.
  unfold outcome, get_custom_recommendations.
  rewrite (step_get "access_token" _ _ w Ha), Hm.
  cbn [String.eqb Ascii.eqb Bool.eqb].
  unfold form_get. rewrite Hartist, Hgenre, !step_lift.
  rewrite run_bind, Hrun, Ht.
  unfold requests_get. rewrite step_send. cbn [sent log].
  change (upstream e _ _)
    with (upstream e (sent w ++ [search_request e artist token])
            (recommendations_request e id genre token)).
  rewrite Hr2.
  destruct (status_code r2 =? 200)%Z; [|reflexivity].
  unfold suggestion_rows.
  destruct (response_json r2) as [data|]; rewrite step_lift; cbn [mbind result_bind];
    [|reflexivity].
  destruct (getitem data "tracks") as [tracks|]; rewrite step_lift; cbn [mbind result_bind];
    [|reflexivity].
  destruct (py_iter tracks) as [l|]; rewrite step_lift; cbn [mbind result_bind];
    [|reflexivity].
  destruct (mapR suggestion_row l) as [rows|]; rewrite step_lift; reflexivity.
Qed.

End NotFound.

(** ** The URLs the handlers build *)

Module url_facts.
Import urllib urllib_facts.

Lemma url_query_of (base q : string) :
  mem_char "?" base = false -> mem_char "#" q = false ->
  url_query (base +:+ String "?" q) = q.
Proof.
  intros Hb Hq. unfold url_query.
  rewrite (split1_app "?" base q Hb). cbn [snd].
  rewrite (split1_none "#" q Hq). reflexivity.
Qed.

Lemma all_chars_weaken (p q : ascii -> bool) (s : string) :
  (forall c, p c = true -> q c = true) ->
  all_chars p s = true -> all_chars q s = true.
Proof.
  intros Hpq. induction s as [|c t IH]; simpl; [reflexivity|].
  intros H. apply andb_prop in H as [Hc Ht].
  rewrite (Hpq c Hc), (IH Ht). reflexivity.
Qed.





Section Urls.
Variable e : env.

(** X21. /login redirects to the authorization URL; its query string decodes to
    the client id, [response_type=code], the three-scope string, the
    callback URI and [show_dialog=True].  With CLIENT_ID unset the client
    id sent is the text 'None'. *)
Theorem login_redirect_parameters (w : world) :
  exists url,
    login e w = (Ok (Redirect url), w) /\
    String.prefix (AUTH_URL +:+ "?") url = true /\
    parse_qsl true (url_query url) =
      [("client_id", py_str e (CLIENT_ID e));
       ("response_type", "code");
       ("scope", "user-read-private user-read-email user-top-read");
       ("redirect_uri", REDIRECT_URI);
       ("show_dialog", "True")].
Proof.
  exists (AUTH_URL +:+ "?" +:+ urlencode e (login_params e)).
  split; [reflexivity|]. split; [reflexivity|].
  change (AUTH_URL +:+ "?" +:+ ?q)
    with ("https://accounts.spotify.com/authorize" +:+ String "?" q).
  rewrite url_query_of;
    [|reflexivity|apply urlencode_free; [reflexivity|discriminate..]].
  rewrite parse_qsl_urlencode. reflexivity.
Qed.

(** X22. Two parameter dictionaries that give the same recommendations URL have
    the same keys and the same values as text, in the same order. *)
Theorem recommendations_url_injective (p1 p2 : list (string * pyval)) :
  build_recommendations_url e p1 = build_recommendations_url e p2 ->
  map (pair_text e) p1 = map (pair_text e) p2.
Proof.
  intros H. apply (f_equal (fun u => parse_qsl true (url_query u))) in H.
  rewrite !url_query_build, !parse_qsl_urlencode in H. exact H.
Qed.

(** X23. A query string built by [urlencode] consists of letters, digits and the
    characters [_.-~+%=&] only, whatever the keys and values are. *)
Theorem urlencode_alphabet (params : list (string * pyval)) :
  all_chars query_char (urlencode e params) = true.
Proof.
  assert (Hq : forall s, all_chars query_char (quote_plus s) = true).
  { intros s. apply (all_chars_weaken url_char); [|apply quote_plus_url_chars].
    intros c Hc. unfold query_char. rewrite Hc. reflexivity. }
  assert (Hp : forall kv, all_chars query_char (encode_pair e kv) = true).
  { intros kv. unfold encode_pair. rewrite !all_chars_app, !Hq. reflexivity. }
  induction params as [|kv kvs IH]; [reflexivity|].
  rewrite urlencode_cons. destruct kvs as [|kv' kvs]; [apply Hp|].
  rewrite all_chars_app, Hp. cbn [all_chars andb]. exact IH.
Qed.



(** X26. When the form has no [minimum] and no [maximum], or values [int] does
    not accept, the recommendations request asks for popularity 0 to 100:
    its query string decodes to the artist id, the genre, [limit=15],
    [market=US], [min_popularity=0] and [max_popularity=100]. *)
Theorem popularity_bounds_default (id : pyval) (genre : string) (token : pyval) :
  (forall s, multidict_get (request_form e) "minimum" = Some s -> int_of_str e s = None) ->
  (forall s, multidict_get (request_form e) "maximum" = Some s -> int_of_str e s = None) ->
  parse_qsl true (url_query (rq_url (recommendations_request e id genre token))) =
    [("seed_artists", py_str e id); ("seed_genres", genre);
     ("limit", "15"); ("market", "US");
     ("min_popularity", "0"); ("max_popularity", "100")].
Proof.
  intros Hmin Hmax.
  change (rq_url (recommendations_request e id genre token))
    with (build_recommendations_url e (recommendation_params e id genre)).
  rewrite url_query_build, parse_qsl_urlencode.
  unfold recommendation_params, form_get_int.
  destruct (multidict_get (request_form e) "minimum") as [s|];
    [rewrite (Hmin s eq_refl)|];
    (destruct (multidict_get (request_form e) "maximum") as [s'|];
     [rewrite (Hmax s' eq_refl)|]); reflexivity.
Qed.

End Urls.
End url_facts.

(** ** The further scenarios, run *)

Module MoreRuns.
Import Scenario.

Ltac by_running :=
  first [ reflexivity | discriminate | vm_compute; reflexivity
        | vm_compute; discriminate ].

Lemma missing_credential_redirects_witness :
  handler page_valid Artists fresh = (Ok (Redirect "/login"), fresh).
Proof. apply (missing_credential_redirects page_valid Artists fresh). by_running. Defined.

Lemma expired_credential_redirects_witness :
  handler page_expired Playlists logged_in
    = (Ok (Redirect "/refresh-token"), tick logged_in).
Proof.
  apply (expired_credential_redirects page_expired Playlists logged_in (VStr "AT1")
           (VFloat (1000 + inject_Z 3600)) (1000 + inject_Z 3600)); by_running.
Defined.

Lemma checked_pages_redirect_on_error_witness :
  outcome (handler page_refused Tracks) logged_in = Ok (Redirect "/login").
Proof.
  apply (checked_pages_redirect_on_error page_refused Tracks logged_in (VStr "AT1")
           (VFloat (1000 + inject_Z 3600)) (1000 + inject_Z 3600)
           {| status_code := 401; json_body := Some api_error |}); by_running.
Defined.

Lemma gate_lets_through_at_expiry_witness :
  sent (after (handler page_at_expiry Artists) logged_in)
    = (sent logged_in
       ++ [bearer_get page_at_expiry (resource_url page_at_expiry Artists) (VStr "AT1")])%list.
Proof.
  apply (gate_lets_through_at_expiry page_at_expiry Artists logged_in (VStr "AT1")
           (VFloat (1000 + inject_Z 3600)) (1000 + inject_Z 3600)); by_running.
Defined.

Lemma token_without_expiry_raises_witness :
  handler page_valid Suggestions token_only
    = (Raise (KeyError (VStr "expires_at")), tick token_only).
Proof.
  apply (token_without_expiry_raises page_valid Suggestions token_only (VStr "AT1"));
    by_running.
Defined.


Lemma artist_picture_is_first_image_or_none_witness :
  artist_row faceless_artist
    = Ok (VDict [("name", VStr "Muse"); ("picture", VNone);
                 ("popularity", VInt 80); ("genres", VList [])]).
Proof.
  apply (artist_picture_is_first_image_or_none faceless_artist (VStr "Muse") (VInt 80)
           (VList []) []); by_running.
Defined.

Lemma get_recommendations_one_bad_track_is_500_witness :
  outcome (get_recommendations recommend_bad_track) logged_in =
    Ok (Jsonify (VDict [("error", VStr "An error occurred while processing the request")])
          500).
Proof.
  apply (get_recommendations_one_bad_track_is_500 recommend_bad_track logged_in
           "Muse" "rock" (VStr "AT1") (VStr "A1") search_answer bad_tracks_answer
           bad_tracks_doc anonymous_track (VStr "Song")
           [track "Song" "Muse"; anonymous_track]);
    first [by_running | right; left; reflexivity].
Defined.

Lemma callback_reports_error_first_witness :
  callback callback_denied fresh
    = (Ok (Jsonify (VDict [("error", VStr "access_denied")]) 200), fresh).
Proof. apply (callback_reports_error_first callback_denied fresh "access_denied"). by_running. Defined.

Lemma callback_sends_one_exchange_witness :
  sent (after (callback exchange_refused) fresh)
    = (sent fresh ++ [exchange_request exchange_refused "C0DE"])%list.
Proof. apply (callback_sends_one_exchange exchange_refused fresh "C0DE"); by_running. Defined.

Lemma exchange_touches_credential_keys_only_witness :
  session (after (exchange_handler exchange_once AuthorizationCode) logged_in_hyphen)
    !! "refresh-token"
  = session logged_in_hyphen !! "refresh-token".
Proof.
  apply (exchange_touches_credential_keys_only exchange_once AuthorizationCode
           logged_in_hyphen "refresh-token"); by_running.
Defined.

Lemma get_recommendations_incomplete_request_is_500_witness :
  get_recommendations recommend_no_form logged_in =
    (Ok (Jsonify (VDict [("error", VStr "An error occurred while processing the request")])
           500), logged_in).
Proof.
  apply (get_recommendations_incomplete_request_is_500 recommend_no_form logged_in);
    [by_running|left; by_running].
Defined.

Lemma get_recommendations_found_witness :
  outcome (get_recommendations recommend_ok) logged_in =
    Ok (if (status_code recommendations_answer =? 200)%Z then
          match suggestion_rows recommendations_answer with
          | Ok rows => Jsonify (VList rows) 200
          | Raise _ =>
              Jsonify (VDict [("error", VStr "An error occurred while processing the request")])
                500
          end
        else
          Jsonify (VDict [("error", VStr "An error occurred while fetching recommendations")])
            400) /\
  sent (after (get_recommendations recommend_ok) logged_in)
    = (sent logged_in
       ++ [search_request recommend_ok "Muse" (VStr "AT1");
           recommendations_request recommend_ok (VStr "A1") "rock" (VStr "AT1")])%list.
Proof.
  apply (get_recommendations_found recommend_ok logged_in "Muse" "rock" (VStr "AT1")
           (VStr "A1") search_answer recommendations_answer); by_running.
Defined.

Lemma get_recommendations_not_found_witness :
  get_recommendations recommend_not_found logged_in =
    (Ok (Jsonify (VDict [("error", VStr "No artist found")]) 404),
     log (search_request recommend_not_found "Muse" (VStr "AT1")) logged_in).
Proof.
  apply (get_recommendations_not_found recommend_not_found logged_in "Muse" "rock"
           (VStr "AT1") VNone {| status_code := 200; json_body := Some (found []) |});
    by_running.
Defined.

Lemma custom_recommendations_needs_token_witness :
  get_custom_recommendations recommend_ok fresh
    = (Raise (KeyError (VStr "access_token")), fresh).
Proof. apply (custom_recommendations_needs_token recommend_ok fresh). by_running. Defined.

Lemma custom_recommendations_not_found_is_silent_witness :
  get_custom_recommendations recommend_not_found logged_in =
    (Ok (RenderTemplate "custom_recommendations.html" []),
     log (search_request recommend_not_found "Muse" (VStr "AT1")) logged_in).
Proof.
  apply (custom_recommendations_not_found_is_silent recommend_not_found logged_in
           "Muse" "rock" (VStr "AT1") VNone
           {| status_code := 200; json_body := Some (found []) |});
    by_running.
Defined.

Lemma custom_recommendations_found_witness :
  outcome (get_custom_recommendations recommend_ok) logged_in =
    if (status_code recommendations_answer =? 200)%Z then
      rows ← suggestion_rows recommendations_answer;
      Ok (RenderTemplate "custom_recommendations.html" [("data", VList rows)])
    else
      Ok (Jsonify (VDict [("error", VStr "An error occurred while fetching recommendations")])
            400).
Proof.
  apply (custom_recommendations_found recommend_ok logged_in "Muse" "rock" (VStr "AT1")
           (VStr "A1") search_answer recommendations_answer); by_running.
Defined.

Lemma recommendations_url_injective_witness :
  map (pair_text page_valid) [("limit", VInt 15)]
  = map (pair_text page_valid) [("limit", VStr "15")].
Proof.
  apply (url_facts.recommendations_url_injective page_valid
           [("limit", VInt 15)] [("limit", VStr "15")]).
  by_running.
Defined.



Lemma popularity_bounds_default_witness :
  urllib.parse_qsl true
    (urllib.url_query
       (rq_url (recommendations_request recommend_ok (VStr "A1") "rock" (VStr "AT1")))) =
    [("seed_artists", py_str recommend_ok (VStr "A1")); ("seed_genres", "rock");
     ("limit", "15"); ("market", "US");
     ("min_popularity", "0"); ("max_popularity", "100")].
Proof.
  apply (url_facts.popularity_bounds_default recommend_ok (VStr "A1") "rock" (VStr "AT1"));
    intros s H; discriminate H.
Defined.

Lemma query_typed_roundtrip_witness :
  read_all [urllib.KStr; urllib.KStr; urllib.KInt; urllib.KStr]
    (urllib.parse_qsl true
       (urllib.url_query (build_recommendations_url page_valid suggestion_params)))
  = Some suggestion_params.
Proof.
  apply (urllib_facts.query_typed_roundtrip page_valid suggestion_params
           [urllib.KStr; urllib.KStr; urllib.KInt; urllib.KStr]).
  by_running.
Defined.

End MoreRuns.
